(** * Battery Cycler: the control and bookkeeping layer of
      [battery_cycler_gui.py], embedded and verified.

    The development follows the Python source function by function:
    - [Py]: the few built-ins of Python the program relies on
      ([str.strip], [str.split], [in], [int], [str], [re.search]);
    - [Config]: [DEFAULT_CONFIG], [load_config] and the legacy stress
      migration of [__init__];
    - [Status]: [get_battery_info] and [get_cycle_info];
    - [Stats]: the computations of [show_stats] (calculated health, the
      session-counter file, [fmt_time]);
    - [Session]: the handlers that drive the cycling script
      ([toggle_cycling], [pause_at_percent], [stop_at_percent]).

    Conventions.  A Python [int] is a [Z].  A Python [str] is a [string];
    characters below 128 are the ASCII characters, the others stand for
    code points that are neither digits nor white space (what
    [decode('ascii', 'replace')] puts in place of a foreign byte).  A
    Python exception is a [None] or a dedicated constructor, and each
    [try]/[except] of the source is a [match] on it.  External commands
    are inputs (their outcome) or events in a log (their invocation). *)

From Stdlib Require Import ZArith String Ascii List Lia.
From Stdlib Require Import DecimalString DecimalZ.
From stdpp Require Import base gmap strings list.

Set Warnings "-register-all".
Open Scope Z_scope.

(* ===================================================================== *)
(** * Python built-ins used by the program                                *)
(* ===================================================================== *)

Module Py.

(** ** Characters *)

Definition code (c : ascii) : Z := Z.of_nat (nat_of_ascii c).

Definition LF : ascii := "010"%char.
Definition dquote : ascii := "034"%char.

(** [str.isspace] on one character: TAB..CR, FS..US and the blank. *)
Definition is_space (c : ascii) : bool :=
  ((9 <=? code c) && (code c <=? 13)) ||
  ((28 <=? code c) && (code c <=? 32)).

(** The decimal digits, [\d] of the [re] module. *)
Definition is_digit (c : ascii) : bool :=
  (48 <=? code c) && (code c <=? 57).

Definition digit_val (c : ascii) : Z := code c - 48.

Definition is_upper (c : ascii) : bool :=
  (65 <=? code c) && (code c <=? 90).

Definition lower_char (c : ascii) : ascii :=
  if is_upper c then ascii_of_nat (nat_of_ascii c + 32) else c.

(** ** Strings *)

(** [s.lower()] *)
Fixpoint lower (s : string) : string :=
  match s with
  | EmptyString => EmptyString
  | String c s' => String (lower_char c) (lower s')
  end.

(** [s.startswith(p)] *)
Fixpoint startswith (p s : string) : bool :=
  match p, s with
  | EmptyString, _ => true
  | String a p', String b s' => if Ascii.eqb a b then startswith p' s' else false
  | String _ _, EmptyString => false
  end.

(** [sub in s] for strings: some suffix of [s] starts with [sub]. *)
Fixpoint contains (sub s : string) : bool :=
  startswith sub s ||
  match s with
  | EmptyString => false
  | String _ s' => contains sub s'
  end.

(** [s.lstrip(chars)], [s.rstrip(chars)] and [s.strip(chars)], the set of
    characters given by its membership test. *)
Fixpoint lstrip_by (p : ascii -> bool) (s : string) : string :=
  match s with
  | EmptyString => EmptyString
  | String c s' => if p c then lstrip_by p s' else s
  end.

Fixpoint rstrip_by (p : ascii -> bool) (s : string) : string :=
  match s with
  | EmptyString => EmptyString
  | String c s' =>
      match rstrip_by p s' with
      | EmptyString => if p c then EmptyString else String c EmptyString
      | r => String c r
      end
  end.

Definition strip_by (p : ascii -> bool) (s : string) : string :=
  rstrip_by p (lstrip_by p s).

(** [s.strip()] *)
Definition strip (s : string) : string := strip_by is_space s.

(** [s.strip(c)] for a one-character [c] *)
Definition strip_char (c : ascii) (s : string) : string :=
  strip_by (Ascii.eqb c) s.

(** [s.replace(c, "")] for a one-character [c] *)
Fixpoint remove_char (c : ascii) (s : string) : string :=
  match s with
  | EmptyString => EmptyString
  | String a s' =>
      if Ascii.eqb c a then remove_char c s' else String a (remove_char c s')
  end.

(** [s.split(sep)] for a one-character separator, as the pair of the first
    field and the list of the others: the result of [split] is never
    empty. *)
Fixpoint split_fields (sep : ascii) (s : string) : string * list string :=
  match s with
  | EmptyString => (EmptyString, [])
  | String c s' =>
      let '(f, fs) := split_fields sep s' in
      if Ascii.eqb sep c then (EmptyString, f :: fs) else (String c f, fs)
  end.

Definition split (sep : ascii) (s : string) : list string :=
  let '(f, fs) := split_fields sep s in f :: fs.

(** [s.split(sep)[1]]; [None] is the [IndexError]. *)
Definition split_1 (sep : ascii) (s : string) : option string :=
  match snd (split_fields sep s) with
  | [] => None
  | f :: _ => Some f
  end.

(** [s.split(sep)[-1]] *)
Definition split_last (sep : ascii) (s : string) : string :=
  let '(f, fs) := split_fields sep s in List.last fs f.

(** ** Integers *)

(** [str(n)] *)
Definition str (n : Z) : string := NilZero.string_of_int (Z.to_int n).

(** The digits of an integer literal: digits, single underscores allowed
    between two digits.  [seen] tells whether the previous character was a
    digit. *)
Fixpoint int_digits (acc : Z) (seen : bool) (s : string) : option Z :=
  match s with
  | EmptyString => if seen then Some acc else None
  | String c s' =>
      if is_digit c then int_digits (10 * acc + digit_val c) true s'
      else if Ascii.eqb c "_" then
        if seen then int_digits acc false s' else None
      else None
  end.

(** [int(s)] in base ten: surrounding white space, an optional sign, the
    digits.  [None] is the [ValueError].  Every call of the program passes
    a stripped string or a run of digits.  The interpreter's limit on the
    length of the literal (some thousand digits) is left out. *)
Definition int (s : string) : option Z :=
  match strip s with
  | EmptyString => None
  | String c d =>
      if Ascii.eqb c "+" then int_digits 0 false d
      else if Ascii.eqb c "-" then Z.opp <$> int_digits 0 false d
      else int_digits 0 false (String c d)
  end.

(** Truth value of an optional integer: [None] and [0] are false. *)
Definition truthy (o : option Z) : bool :=
  match o with
  | Some n => negb (n =? 0)
  | None => false
  end.

(** ** [re.search(r'(\d+)%', s)] *)

(** [(\d+)%] anchored at the head of [s]: the greedy [\d+] first tries to
    take one more digit and, when the rest then fails, gives it back and
    looks for the percent sign. *)
Fixpoint match_digits_pct (s : string) : option string :=
  match s with
  | EmptyString => None
  | String c s' =>
      if is_digit c then
        match match_digits_pct s' with
        | Some ds => Some (String c ds)
        | None =>
            if startswith "%" s' then Some (String c EmptyString) else None
        end
      else None
  end.

(** The search tries the start positions from left to right; the result is
    group 1 of the first match. *)
Fixpoint search_digits_pct (s : string) : option string :=
  match match_digits_pct s with
  | Some ds => Some ds
  | None =>
      match s with
      | EmptyString => None
      | String _ s' => search_digits_pct s'
      end
  end.

End Py.

(* ===================================================================== *)
(** * Configuration: [DEFAULT_CONFIG], [load_config], migration            *)
(* ===================================================================== *)

(** What [json.load] returns.  A float keeps its source text: the program
    never computes with one. *)
Inductive json :=
| JNull
| JBool (b : bool)
| JInt (z : Z)
| JFloat (repr : string)
| JStr (s : string)
| JArr (l : list json)
| JObj (m : gmap string json).

Module Config.

(** [DEFAULT_CONFIG], in the order of the source (the order in which
    [load_config] visits the keys). *)
Definition DEFAULT_ITEMS : list (string * json) :=
  [ ("upper_limit", JInt 80);
    ("lower_limit", JInt 20);
    ("pause_limit", JInt 50);
    ("reset_limit", JInt 80);
    ("cpu_stress", JStr "high");
    ("gpu_stress", JStr "off") ]%string.

Definition DEFAULT_CONFIG : gmap string json := list_to_map DEFAULT_ITEMS.

(** The configuration file as [load_config] finds it: absent
    ([os.path.exists] is false), unreadable or not JSON ([open] or
    [json.load] raises), or parsed. *)
Inductive config_file :=
| NoFile
| BadFile
| Parsed (j : json).

Definition is_str (k : string) (j : json) : bool :=
  match j with
  | JStr s => String.eqb k s
  | _ => false
  end.

(** [key in config] for a string [key].  A dict tests its keys, a list its
    elements, a string its substrings; the other values are not
    containers and raise [TypeError] ([None]). *)
Definition key_in (k : string) (j : json) : option bool :=
  match j with
  | JObj m => Some (bool_decide (is_Some (m !! k)))
  | JArr l => Some (existsb (is_str k) l)
  | JStr s => Some (Py.contains k s)
  | _ => None
  end.

(** [config[key] = value]: only a dict takes a string key; [None] is the
    [TypeError] of the others. *)
Definition set_item (k : string) (v : json) (j : json) : option json :=
  match j with
  | JObj m => Some (JObj (<[k := v]> m))
  | _ => None
  end.

(** The loop [for key in DEFAULT_CONFIG: if key not in config: ...]. *)
Fixpoint merge_defaults (items : list (string * json)) (config : json)
  : option json :=
  match items with
  | [] => Some config
  | (k, d) :: rest =>
      match key_in k config with
      | None => None
      | Some true => merge_defaults rest config
      | Some false =>
          match set_item k d config with
          | None => None
          | Some config' => merge_defaults rest config'
          end
      end
  end.

(** [load_config]: the bare [except: pass] sends every exception of the
    [try] block to the final [return DEFAULT_CONFIG.copy()]. *)
Definition load_config (f : config_file) : json :=
  match f with
  | Parsed j =>
      match merge_defaults DEFAULT_ITEMS j with
      | Some config => config
      | None => JObj DEFAULT_CONFIG
      end
  | NoFile | BadFile => JObj DEFAULT_CONFIG
  end.

(** The migration of one legacy stress field in [__init__] (lines 147-151
    and 159-163): [level = config.get(key, default)]; a boolean becomes
    ["high"] or ["off"] and is written back; then [level.title()] is
    called, which only a string has: [None] is the [AttributeError] that
    ends [__init__] for any other value. *)
Definition migrate_field (k : string) (config : gmap string json)
  : option (gmap string json) :=
  match config !! k with
  | None => Some config
  | Some (JBool b) => Some (<[k := JStr (if b then "high" else "off")]> config)
  | Some (JStr _) => Some config
  | Some _ => None
  end.

Definition migrate (config : gmap string json) : option (gmap string json) :=
  migrate_field "cpu_stress" config ≫= migrate_field "gpu_stress".

(** The defaults as the specification documents them. *)
Definition documented_default (k : string) : option json :=
  if String.eqb k "upper_limit" then Some (JInt 80)
  else if String.eqb k "lower_limit" then Some (JInt 20)
  else if String.eqb k "pause_limit" then Some (JInt 50)
  else if String.eqb k "reset_limit" then Some (JInt 80)
  else if String.eqb k "cpu_stress" then Some (JStr "high")
  else if String.eqb k "gpu_stress" then Some (JStr "off")
  else None.

Definition config_keys : list string := fst <$> DEFAULT_ITEMS.

End Config.

(* ===================================================================== *)
(** * Status probe: [get_battery_info], [get_cycle_info]                   *)
(* ===================================================================== *)

(** Outcome of a [subprocess.run] whose output the program reads: it
    raised (time-out, missing binary, undecodable text), or it completed
    with an exit status and its standard output. *)
Inductive run_result :=
| RunRaised
| RunCompleted (returncode : Z) (stdout : string).

(** The session-counter file [STATE_FILE] as a reader finds it: absent,
    present but [open]/[read] raises, or its decoded content. *)
Inductive state_file :=
| StateAbsent
| StateUnreadable
| StateContent (content : string).

Module Status.

(** [get_battery_info], with the outcome of [pmset -g batt] as input.  The
    exit status is never looked at.  The [None] of [Py.int] is the
    [ValueError] that the bare [except] turns into [(0, False)]. *)
Definition get_battery_info (r : run_result) : Z * bool :=
  match r with
  | RunRaised => (0, false)
  | RunCompleted _ output =>
      let percent :=
        match Py.search_digits_pct output with
        | Some g => Py.int g
        | None => Some 0
        end in
      match percent with
      | None => (0, false)
      | Some percent =>
          (percent,
           Py.contains "charging" (Py.lower output)
           || Py.contains "AC Power" output)
      end
  end.

(** The loop of [get_cycle_info] over the lines of the state file: the
    value of [cycles] when the loop ends, and whether it ended normally
    ([false]: [int] raised and the loop was left through the exception). *)
Fixpoint scan_cycles (lines : list string) (cycles : Z) : Z * bool :=
  match lines with
  | [] => (cycles, true)
  | line :: rest =>
      if Py.startswith "TOTAL_DISCHARGE_CYCLES=" line then
        match Py.split_1 "=" line ≫= (λ f, Py.int (Py.strip f)) with
        | Some n => scan_cycles rest n
        | None => (cycles, false)
        end
      else scan_cycles rest cycles
  end.

Definition read_cycles (f : state_file) : Z * bool :=
  match f with
  | StateAbsent => (0, true)
  | StateUnreadable => (0, false)
  | StateContent content => scan_cycles (Py.split Py.LF content) 0
  end.

(** The loop over the lines of [system_profiler SPPowerDataType]: the
    first line that holds ["Maximum Capacity"] and a colon gives the
    health, then [break]. *)
Fixpoint scan_health (lines : list string) : option string :=
  match lines with
  | [] => None
  | line :: rest =>
      if Py.contains "Maximum Capacity" line && Py.contains ":" line
      then Some (Py.strip (Py.split_last ":" line))
      else scan_health rest
  end.

(** [get_cycle_info]: one [try] block holds the file read and the query;
    an exception in the first skips the second. *)
Definition get_cycle_info (f : state_file) (sp : run_result) : Z * string :=
  let '(cycles, finished) := read_cycles f in
  if finished then
    match sp with
    | RunRaised => (cycles, "--"%string)
    | RunCompleted _ output =>
        (cycles, default "--"%string (scan_health (Py.split Py.LF output)))
    end
  else (cycles, "--"%string).

(** The two results as the specification describes them, each on its own
    source: the cycle count of the file, [0] when it cannot be read or
    parsed; the health of the report, ["--"] when absent or on failure. *)
Definition cycles_of_file (f : state_file) : Z :=
  let '(cycles, finished) := read_cycles f in
  if finished then cycles else 0.

Definition health_of_report (sp : run_result) : string :=
  match sp with
  | RunRaised => "--"
  | RunCompleted _ output => default "--"%string (scan_health (Py.split Py.LF output))
  end.

End Status.

(* ===================================================================== *)
(** * Statistics: the computations of [show_stats]                         *)
(* ===================================================================== *)

Module Stats.

Definition quoted (s : string) : string :=
  String Py.dquote (s +:+ String Py.dquote EmptyString).

(** One register: [if '"Name"' in line and '=' in line: try: v = int(...)
    except: pass]. *)
Definition scan_register (name line : string) (v : option Z) : option Z :=
  if Py.contains (quoted name) line && Py.contains "=" line then
    match Py.int (Py.strip (Py.split_last "=" line)) with
    | Some n => Some n
    | None => v
    end
  else v.

(** The loop over the lines of [ioreg -rn AppleSmartBattery]. *)
Fixpoint scan_registers (lines : list string) (caps : option Z * option Z)
  : option Z * option Z :=
  match lines with
  | [] => caps
  | line :: rest =>
      scan_registers rest
        (scan_register "NominalChargeCapacity" line (fst caps),
         scan_register "DesignCapacity" line (snd caps))
  end.

(** [calc_health] and [cap_info] (lines 399-403).  [int(a * 100 / b)] is
    the quotient truncated toward zero; the float division of Python gives
    the same integer part as the exact one as long as
    [|100 * a| + b < 2^53], far above any register value. *)
Definition calc_health (nominal_cap design_cap : option Z) : string * string :=
  match nominal_cap, design_cap with
  | Some n, Some d =>
      if negb (n =? 0) && negb (d =? 0) && (0 <? d) then
        (Py.str (Z.quot (n * 100) d) +:+ "%",
         Py.str n +:+ "/" +:+ Py.str d +:+ " mAh")
      else ("N/A", "N/A")
  | _, _ => ("N/A", "N/A")
  end.

(** The values read from the state file (lines 406-411). *)
Record counters := {
  script_cycles : Z;
  initial_health : string;
  initial_apple_cycles : string;
  total_active_secs : Z;
  total_discharge_secs : Z;
  total_charge_secs : Z
}.

Definition initial_counters : counters :=
  {| script_cycles := 0; initial_health := "N/A";
     initial_apple_cycles := "N/A"; total_active_secs := 0;
     total_discharge_secs := 0; total_charge_secs := 0 |}.

Definition set_script_cycles (n : Z) (c : counters) : counters :=
  {| script_cycles := n; initial_health := initial_health c;
     initial_apple_cycles := initial_apple_cycles c;
     total_active_secs := total_active_secs c;
     total_discharge_secs := total_discharge_secs c;
     total_charge_secs := total_charge_secs c |}.

Definition set_initial_health (s : string) (c : counters) : counters :=
  {| script_cycles := script_cycles c; initial_health := s;
     initial_apple_cycles := initial_apple_cycles c;
     total_active_secs := total_active_secs c;
     total_discharge_secs := total_discharge_secs c;
     total_charge_secs := total_charge_secs c |}.

Definition set_initial_apple_cycles (s : string) (c : counters) : counters :=
  {| script_cycles := script_cycles c; initial_health := initial_health c;
     initial_apple_cycles := s;
     total_active_secs := total_active_secs c;
     total_discharge_secs := total_discharge_secs c;
     total_charge_secs := total_charge_secs c |}.

Definition set_total_active_secs (n : Z) (c : counters) : counters :=
  {| script_cycles := script_cycles c; initial_health := initial_health c;
     initial_apple_cycles := initial_apple_cycles c;
     total_active_secs := n;
     total_discharge_secs := total_discharge_secs c;
     total_charge_secs := total_charge_secs c |}.

Definition set_total_discharge_secs (n : Z) (c : counters) : counters :=
  {| script_cycles := script_cycles c; initial_health := initial_health c;
     initial_apple_cycles := initial_apple_cycles c;
     total_active_secs := total_active_secs c;
     total_discharge_secs := n;
     total_charge_secs := total_charge_secs c |}.

Definition set_total_charge_secs (n : Z) (c : counters) : counters :=
  {| script_cycles := script_cycles c; initial_health := initial_health c;
     initial_apple_cycles := initial_apple_cycles c;
     total_active_secs := total_active_secs c;
     total_discharge_secs := total_discharge_secs c;
     total_charge_secs := n |}.

(** [int(line.split("=")[1].strip())]; [None] when it raises. *)
Definition int_field (line : string) : option Z :=
  Py.split_1 "=" line ≫= (λ f, Py.int (Py.strip f)).

(** [line.split("=")[1].strip()] with the double quotes then stripped from
    both ends; [None] when it raises. *)
Definition str_field (line : string) : option string :=
  (λ f, Py.strip_char Py.dquote (Py.strip f)) <$> Py.split_1 "=" line.

Definition nonempty (s : string) : bool :=
  match s with
  | EmptyString => false
  | String _ _ => true
  end.

(** The [if]/[elif] chain over the lines of the state file (lines 416-441).
    The three duration counters have a [try]/[except: pass] of their own:
    a bad value is skipped and the loop goes on.  The first three branches
    have none: an exception there leaves the loop, and the [except: pass]
    around the whole read (line 442) keeps what was assigned so far. *)
Fixpoint scan_state (lines : list string) (c : counters) : counters :=
  match lines with
  | [] => c
  | line :: rest =>
      if Py.startswith "TOTAL_DISCHARGE_CYCLES=" line then
        match int_field line with
        | Some n => scan_state rest (set_script_cycles n c)
        | None => c
        end
      else if Py.startswith "INITIAL_HEALTH=" line then
        match str_field line with
        | Some val =>
            scan_state rest
              (if nonempty val then set_initial_health (val +:+ "%") c else c)
        | None => c
        end
      else if Py.startswith "INITIAL_APPLE_CYCLES=" line then
        match str_field line with
        | Some val =>
            scan_state rest
              (if nonempty val then set_initial_apple_cycles val c else c)
        | None => c
        end
      else if Py.startswith "TOTAL_ACTIVE_SECS=" line then
        scan_state rest
          (match int_field line with
           | Some n => set_total_active_secs n c
           | None => c
           end)
      else if Py.startswith "TOTAL_DISCHARGE_SECS=" line then
        scan_state rest
          (match int_field line with
           | Some n => set_total_discharge_secs n c
           | None => c
           end)
      else if Py.startswith "TOTAL_CHARGE_SECS=" line then
        scan_state rest
          (match int_field line with
           | Some n => set_total_charge_secs n c
           | None => c
           end)
      else scan_state rest c
  end.

(** The whole read of the state file in [show_stats] (lines 412-443). *)
Definition read_state (f : state_file) : counters :=
  match f with
  | StateAbsent | StateUnreadable => initial_counters
  | StateContent content => scan_state (Py.split Py.LF content) initial_counters
  end.

(** [fmt_time] (lines 446-453); [//] and [%] of Python round toward minus
    infinity, as [Z.div] and [Z.modulo] do for a positive divisor. *)
Definition fmt_time (secs : Z) : string :=
  if secs =? 0 then "0m"
  else
    let hours := secs / 3600 in
    let mins := (secs mod 3600) / 60 in
    if 0 <? hours then Py.str hours +:+ "h " +:+ Py.str mins +:+ "m"
    else Py.str mins +:+ "m".

(** Rounding to nearest of [a / b] for [b > 0] (halves upward), the
    [round] of the specification. *)
Definition round_div (a b : Z) : Z := (2 * a + b) / (2 * b).

(** A file of the given lines. *)
Definition unlines (lines : list string) : string :=
  match lines with
  | [] => EmptyString
  | l :: ls => fold_left (λ acc x, acc +:+ String Py.LF x) ls l
  end.

End Stats.

(* ===================================================================== *)
(** * Session control: the handlers that drive the cycling script          *)
(* ===================================================================== *)

Module Session.

(** What the handlers do to the outside world, in order. *)
Inductive event :=
| SaveConfig (config : gmap string json)   (* json.dump to CONFIG_FILE *)
| Popen (pid : nat)                        (* bash battery_cycle.sh, own session *)
| Killpg (pid : nat)                       (* os.killpg(os.getpgid(pid), SIGTERM) *)
| Terminate (pid : nat)                    (* script_process.terminate() *)
| Pkill (args : list string)               (* subprocess.run(["pkill", ...]) *)
| BatteryCmd (args : list string)          (* run_battery_cmd(args) *)
| Notification (msg : string).             (* rumps.notification *)

(** The application object and the part of the machine it acts on.  The
    [Popen] handle is its process id; [poll() is None] is membership in
    [running]. *)
Record app := {
  config : gmap string json;
  script_process : option nat;
  config_on_disk : option (gmap string json);
  running : gset nat;
  log : list event
}.

(** What a handler cannot decide: whether [CONFIG_FILE] can be written,
    whether [killpg] goes through, which process [Popen] creates ([None]:
    it raises), and whether that process is still there when the handler
    polls it at its end. *)
Record env := {
  write_ok : bool;
  killpg_ok : bool;
  spawn : option nat;
  child_runs : bool
}.

(** A handler returns, or an exception leaves it. *)
Inductive outcome :=
| Returned (a : app)
| Raised (a : app).

Definition bind (o : outcome) (k : app -> outcome) : outcome :=
  match o with
  | Returned a => k a
  | Raised a => Raised a
  end.

Notation "'let!' a := o 'in' k" := (bind o (fun a => k))
  (at level 10, a name, o at level 200, k at level 200).

Definition set_config (k : string) (v : json) (a : app) : app :=
  {| config := <[k := v]> (config a); script_process := script_process a;
     config_on_disk := config_on_disk a; running := running a;
     log := log a |}.

Definition set_process (p : option nat) (a : app) : app :=
  {| config := config a; script_process := p;
     config_on_disk := config_on_disk a; running := running a;
     log := log a |}.

Definition emit (evs : list event) (a : app) : app :=
  {| config := config a; script_process := script_process a;
     config_on_disk := config_on_disk a; running := running a;
     log := log a ++ evs |}.

Definition started (pid : nat) (alive : bool) (a : app) : app :=
  {| config := config a; script_process := Some pid;
     config_on_disk := config_on_disk a;
     running := if alive then {[pid]} ∪ running a else running a ∖ {[pid]};
     log := log a ++ [Popen pid] |}.

(** [self.script_process and self.script_process.poll() is None], with
    the process when it holds. *)
Definition active_pid (a : app) : option nat :=
  match script_process a with
  | Some pid => if bool_decide (pid ∈ running a) then Some pid else None
  | None => None
  end.

(** [save_config]: the write is not guarded; a failure propagates. *)
Definition save_config (e : env) (a : app) : outcome :=
  if write_ok e then
    Returned
      {| config := config a; script_process := script_process a;
         config_on_disk := Some (config a); running := running a;
         log := log a ++ [SaveConfig (config a)] |}
  else Raised a.

(** [try: os.killpg(...) except: self.script_process.terminate()] followed
    by [self.script_process = None].  The handler does not wait for the
    process: [running] is left as it is. *)
Definition kill_script (e : env) (pid : nat) (a : app) : app :=
  set_process None
    (emit (if killpg_ok e then [Killpg pid] else [Killpg pid; Terminate pid]) a).

(** The part of [update_status] that touches the session: a handle whose
    process has exited is dropped.  (The rest sets menu titles.) *)
Definition update_status (a : app) : app :=
  match active_pid a with
  | Some _ => a
  | None => set_process None a
  end.

(** [toggle_cycling] *)
Definition toggle_cycling (e : env) (a : app) : outcome :=
  match active_pid a with
  | Some pid =>
      let a := kill_script e pid a in
      let a := emit [Notification "Cycling stopped"] a in
      Returned (update_status a)
  | None =>
      let! a := save_config e a in
      match spawn e with
      | None => Raised a
      | Some pid =>
          let a := started pid (child_runs e) a in
          let a := emit [Notification "Cycling started"] a in
          Returned (update_status a)
      end
  end.

(** The block shared by [pause_at_percent] and [stop_at_percent] after the
    limit is stored (lines 519-532 and 547-560). *)
Definition hold_at (e : env) (val : Z) (a : app) : app :=
  let a :=
    match active_pid a with
    | Some pid => kill_script e pid a
    | None => a
    end in
  let a := emit [Pkill ["-9"; "stress-ng"]%string;
                 Pkill ["-f"; "ffmpeg.*videotoolbox"]%string] a in
  emit [BatteryCmd ["maintain"%string; Py.str val]] a.

(** [pause_at_percent], the menu title of the sender as argument. *)
Definition pause_at_percent (e : env) (title : string) (a : app) : outcome :=
  match Py.int (Py.remove_char "%" title) with
  | None => Raised a
  | Some val =>
      let a := set_config "pause_limit" (JInt val) a in
      let! a := save_config e a in
      let a := hold_at e val a in
      let a := emit [Notification
                       ("Paused - holding at " +:+ Py.str val +:+ "%")] a in
      Returned (update_status a)
  end.

(** [stop_at_percent] *)
Definition stop_at_percent (e : env) (title : string) (a : app) : outcome :=
  match Py.int (Py.remove_char "%" title) with
  | None => Raised a
  | Some val =>
      let a := set_config "reset_limit" (JInt val) a in
      let! a := save_config e a in
      let a := hold_at e val a in
      let a := emit [Notification
                       ("Stopped - reset to " +:+ Py.str val +:+ "% limit")] a in
      Returned (update_status a)
  end.

(** The items of the two submenus: [range(20, 101, 5)], each with the
    title ["{}%".format(val)]. *)
Definition menu_percents : list Z :=
  [20; 25; 30; 35; 40; 45; 50; 55; 60; 65; 70; 75; 80; 85; 90; 95; 100].

Definition menu_title (val : Z) : string := Py.str val +:+ "%".

(** The two roles of the override and their handlers and fields. *)
Inductive role := Pause | Reset.

Definition override_to_percent (r : role) : env -> string -> app -> outcome :=
  match r with
  | Pause => pause_at_percent
  | Reset => stop_at_percent
  end.

Definition limit_field (r : role) : string :=
  match r with
  | Pause => "pause_limit"
  | Reset => "reset_limit"
  end.

(** The two states of the session: [Active] iff the tracked process exists
    and has not exited. *)
Definition idle (a : app) : Prop := active_pid a = None.
Definition active (a : app) : Prop := is_Some (active_pid a).

End Session.

(* ===================================================================== *)
(** * Vocabulary of the statements                                         *)
(* ===================================================================== *)

Module Spec.

(** A run of decimal digits and the number it writes. *)
Fixpoint digits_only (s : string) : bool :=
  match s with
  | EmptyString => true
  | String c s' => Py.is_digit c && digits_only s'
  end.

Fixpoint digits_acc (acc : Z) (s : string) : Z :=
  match s with
  | EmptyString => acc
  | String c s' => digits_acc (10 * acc + Py.digit_val c) s'
  end.

Definition digits_value (s : string) : Z := digits_acc 0 s.

(** [sub] occurs in [s]. *)
Definition occurs (sub s : string) : Prop :=
  exists pre post, s = pre +:+ sub +:+ post.

(** After [pre], the text [s] goes on with the integer [ds] and a percent
    sign right behind it. *)
Definition pct_int_at (s pre ds : string) : Prop :=
  ds <> EmptyString /\ digits_only ds = true /\
  exists post, s = pre +:+ ds +:+ String "%" post.

(** [ds] is the first integer of [s] immediately followed by a percent
    sign: no such integer starts further left. *)
Definition first_pct_int (s ds : string) : Prop :=
  exists pre, pct_int_at s pre ds /\
    forall pre' ds', pct_int_at s pre' ds' ->
      (String.length pre <= String.length pre')%nat.

Definition no_pct_int (s : string) : Prop :=
  forall pre ds, ~ pct_int_at s pre ds.

(** A stress field is settled when it is absent or holds a string. *)
Definition settled (k : string) (m : gmap string json) : Prop :=
  m !! k = None \/ exists s, m !! k = Some (JStr s).

(** The events of stopping the tracked script, when one is running. *)
Definition stop_events (e : Session.env) (a : Session.app) : list Session.event :=
  match Session.active_pid a with
  | Some pid =>
      if Session.killpg_ok e then [Session.Killpg pid]
      else [Session.Killpg pid; Session.Terminate pid]
  | None => []
  end.

Definition override_message (r : Session.role) (val : Z) : string :=
  match r with
  | Session.Pause => "Paused - holding at " +:+ Py.str val +:+ "%"
  | Session.Reset => "Stopped - reset to " +:+ Py.str val +:+ "% limit"
  end.

(** A fresh application object and an environment in which everything
    goes through, for the examples. *)
Definition fresh_app : Session.app :=
  {| Session.config := Config.DEFAULT_CONFIG; Session.script_process := None;
     Session.config_on_disk := None; Session.running := ∅;
     Session.log := [] |}.

(** The application while the script [pid] runs. *)
Definition cycling_app (pid : nat) : Session.app :=
  {| Session.config := Config.DEFAULT_CONFIG; Session.script_process := Some pid;
     Session.config_on_disk := Some Config.DEFAULT_CONFIG;
     Session.running := {[ pid ]}; Session.log := [] |}.

Definition fair_env (pid : nat) : Session.env :=
  {| Session.write_ok := true; Session.killpg_ok := true;
     Session.spawn := Some pid; Session.child_runs := true |}.

End Spec.

(* ===================================================================== *)
(** * The other handlers of the menu, and the life of the application      *)
(* ===================================================================== *)

Module Menu.

Import Session.

Definition STRESS_LEVELS : list string := ["Off"; "Low"; "Medium"; "High"].

(** [set_upper_limit] and [set_lower_limit] (lines 312-330): the value of
    the title is stored and the configuration written; the rest sets menu
    titles and check marks. *)
Definition set_upper_limit (e : env) (title : string) (a : app) : outcome :=
  match Py.int (Py.remove_char "%" title) with
  | None => Raised a
  | Some val => save_config e (set_config "upper_limit" (JInt val) a)
  end.

Definition set_lower_limit (e : env) (title : string) (a : app) : outcome :=
  match Py.int (Py.remove_char "%" title) with
  | None => Raised a
  | Some val => save_config e (set_config "lower_limit" (JInt val) a)
  end.

(** [set_cpu_stress] and [set_gpu_stress] (lines 332-346): the level is
    the lower-cased title. *)
Definition set_cpu_stress (e : env) (title : string) (a : app) : outcome :=
  save_config e (set_config "cpu_stress" (JStr (Py.lower title)) a).

Definition set_gpu_stress (e : env) (title : string) (a : app) : outcome :=
  save_config e (set_config "gpu_stress" (JStr (Py.lower title)) a).

(** The check marks every selection handler sets on its submenu:
    [for item in menu.values(): item.state = 1 if item.title ==
    sender.title else 0], the items by their titles. *)
Definition mark_items (sender : string) (titles : list string)
  : list (string * Z) :=
  (fun t => (t, if String.eqb t sender then 1 else 0)) <$> titles.

(** [quit_app] (lines 564-570): the running script is signalled as in
    [toggle_cycling], but the handle is kept and nothing is awaited. *)
Definition quit_app (e : env) (a : app) : app :=
  match active_pid a with
  | Some pid =>
      emit (if killpg_ok e then [Killpg pid] else [Killpg pid; Terminate pid]) a
  | None => a
  end.

(** What can happen to the application: the callbacks bound to the menu
    items in [__init__] (lines 112-201) and the timer of line 205. *)
Inductive action :=
| Toggle
| PauseAt (title : string)
| StopAt (title : string)
| SetUpper (title : string)
| SetLower (title : string)
| SetCpu (title : string)
| SetGpu (title : string)
| Refresh
| Quit.

Definition handle (e : env) (act : action) (a : app) : outcome :=
  match act with
  | Toggle => toggle_cycling e a
  | PauseAt title => pause_at_percent e title a
  | StopAt title => stop_at_percent e title a
  | SetUpper title => set_upper_limit e title a
  | SetLower title => set_lower_limit e title a
  | SetCpu title => set_cpu_stress e title a
  | SetGpu title => set_gpu_stress e title a
  | Refresh => Returned (update_status a)
  | Quit => Returned (quit_app e a)
  end.

Definition set_running (r : gset nat) (a : app) : app :=
  {| config := config a; script_process := script_process a;
     config_on_disk := config_on_disk a; running := r; log := log a |}.

(** One step of the life of the application: a callback returns or
    raises, in any environment, or a child process exits on its own. *)
Inductive step : app -> app -> Prop :=
| step_returned e act a a' : handle e act a = Returned a' -> step a a'
| step_raised e act a a' : handle e act a = Raised a' -> step a a'
| step_exit pid a : step a (set_running (running a ∖ {[pid]}) a).

(** [__init__] tracks no process (line 98) and has done nothing yet. *)
Definition initial (a : app) : Prop :=
  script_process a = None /\ log a = [].

Inductive reachable : app -> Prop :=
| reach_initial a : initial a -> reachable a
| reach_step a a' : reachable a -> step a a' -> reachable a'.

End Menu.

(* ===================================================================== *)
(** * Start-up and the rest of the statistics report                       *)
(* ===================================================================== *)

Module Startup.

(** The configuration [__init__] goes on with (lines 99-168):
    [load_config], then the menus read it with [self.config.get], which
    only a dict has, then the stress fields are migrated.  [None]: the
    constructor raises. *)
Definition startup_config (f : Config.config_file)
  : option (gmap string json) :=
  match Config.load_config f with
  | JObj m => Config.migrate m
  | _ => None
  end.

End Startup.

Module Report.

(** The three values [show_stats] reads from [system_profiler
    SPPowerDataType] (lines 367-377). *)
Record profile := {
  apple_health : string;
  condition : string;
  apple_cycles : string
}.

Definition initial_profile : profile :=
  {| apple_health := "N/A"; condition := "N/A"; apple_cycles := "N/A" |}.

(** The loop over the lines: each line is stripped first; the last line
    that matches a field gives its value (there is no [break]). *)
Fixpoint scan_profiler (lines : list string) (p : profile) : profile :=
  match lines with
  | [] => p
  | line :: rest =>
      let line := Py.strip line in
      scan_profiler rest
        (if Py.contains "Maximum Capacity" line && Py.contains ":" line then
           {| apple_health := Py.strip (Py.split_last ":" line);
              condition := condition p; apple_cycles := apple_cycles p |}
         else if Py.contains "Condition" line && Py.contains ":" line then
           {| apple_health := apple_health p;
              condition := Py.strip (Py.split_last ":" line);
              apple_cycles := apple_cycles p |}
         else if Py.contains "Cycle Count" line && Py.contains ":" line then
           {| apple_health := apple_health p; condition := condition p;
              apple_cycles := Py.strip (Py.split_last ":" line) |}
         else p)
  end.

Definition read_profiler (output : string) : profile :=
  scan_profiler (Py.split Py.LF output) initial_profile.


(** The calculated health and the capacity from the output of [ioreg]
    (lines 384-403). *)
Definition ioreg_health (output2 : string) : string * string :=
  let caps := Stats.scan_registers (Py.split Py.LF output2) (None, None) in
  Stats.calc_health (fst caps) (snd caps).

End Report.

(* ===================================================================== *)
(** * Vocabulary of the further statements                                 *)
(* ===================================================================== *)

Module Props.

(** Every character of [s] satisfies [p]. *)
Fixpoint all_chars (p : ascii -> bool) (s : string) : bool :=
  match s with
  | EmptyString => true
  | String c s' => p c && all_chars p s'
  end.

(** The keys of the state file that [show_stats] looks for. *)
Definition cycles_key : string := "TOTAL_DISCHARGE_CYCLES=".
Definition string_keys : list string :=
  ["INITIAL_HEALTH="; "INITIAL_APPLE_CYCLES="].
Definition duration_keys : list string :=
  ["TOTAL_ACTIVE_SECS="; "TOTAL_DISCHARGE_SECS="; "TOTAL_CHARGE_SECS="].

Definition starts_with_any (keys : list string) (line : string) : bool :=
  existsb (fun k => Py.startswith k line) keys.

(** A line that cannot change what [show_stats] reads: it starts with no
    key, or it is a duration line whose value is not an integer. *)
Definition inert (line : string) : bool :=
  negb (Py.startswith cycles_key line)
  && negb (starts_with_any string_keys line)
  && (negb (starts_with_any duration_keys line)
      || match Stats.int_field line with None => true | Some _ => false end).

(** The configuration on disk is the one in memory. *)
Definition synced (a : Session.app) : Prop :=
  Session.config_on_disk a = Some (Session.config a).

(** The process was launched by the application, or signalled by it. *)
Definition launched (pid : nat) (a : Session.app) : Prop :=
  Session.Popen pid ∈ Session.log a.

Definition signalled (pid : nat) (a : Session.app) : Prop :=
  Session.Killpg pid ∈ Session.log a.

(** What every state of the running application satisfies: the tracked
    process and every process signalled were launched by the application,
    and a launched process that still runs is tracked unless it was
    signalled. *)
Definition session_inv (a : Session.app) : Prop :=
  (forall pid, Session.script_process a = Some pid -> launched pid a) /\
  (forall pid, Session.Killpg pid ∈ Session.log a \/
               Session.Terminate pid ∈ Session.log a -> launched pid a) /\
  (forall pid, launched pid a -> pid ∈ Session.running a ->
               Session.script_process a = Some pid \/ signalled pid a).

(** The key of the configuration a callback writes, if any. *)
Definition own_key (act : Menu.action) : option string :=
  match act with
  | Menu.PauseAt _ => Some "pause_limit"
  | Menu.StopAt _ => Some "reset_limit"
  | Menu.SetUpper _ => Some "upper_limit"
  | Menu.SetLower _ => Some "lower_limit"
  | Menu.SetCpu _ => Some "cpu_stress"
  | Menu.SetGpu _ => Some "gpu_stress"
  | Menu.Toggle | Menu.Refresh | Menu.Quit => None
  end.

(** The callbacks that write the configuration whenever they return. *)
Definition saves (act : Menu.action) (a : Session.app) : Prop :=
  match act with
  | Menu.Refresh | Menu.Quit => False
  | Menu.Toggle => Session.idle a
  | _ => True
  end.

(** The state a callback leaves, returned or raised. *)
Definition final (o : Session.outcome) : Session.app :=
  match o with
  | Session.Returned a => a
  | Session.Raised a => a
  end.

(** The state after a first [toggle_cycling] on a fresh application, and
    after a second one, for the examples. *)
Definition after_start (pid : nat) : Session.app :=
  final (Session.toggle_cycling (Spec.fair_env pid) Spec.fresh_app).



(** A stress level of the documented domain. *)
Definition stress_level (j : json) : Prop :=
  j = JStr "off" \/ j = JStr "low" \/ j = JStr "medium" \/ j = JStr "high".

(** A value of a stress field that start-up cannot use: it is neither
    the legacy boolean nor a string. *)
Definition unusable (k : string) (m : gmap string json) : Prop :=
  exists v, m !! k = Some v /\ (forall b, v <> JBool b) /\ (forall s, v <> JStr s).

(** The application starts from a file that holds the record [c]. *)
Definition starts (c : gmap string json) : Prop :=
  is_Some (Startup.startup_config (Config.Parsed (JObj c))).

(** The configuration in memory and the one in the file, if the
    application wrote one, are records the application starts from. *)
Definition restartable (a : Session.app) : Prop :=
  starts (Session.config a) /\
  forall c, Session.config_on_disk a = Some c -> starts c.

(** The callbacks that end with [self.update_status(None)], and the
    timer, which is that call. *)
Definition refreshes (act : Menu.action) : bool :=
  match act with
  | Menu.Toggle | Menu.PauseAt _ | Menu.StopAt _ | Menu.Refresh => true
  | _ => false
  end.

(** A line of the power report that gives the maximum capacity, as both
    readers of the report recognise it. *)
Definition health_line (line : string) : bool :=
  Py.contains "Maximum Capacity" line && Py.contains ":" line.

End Props.

(* ===================================================================== *)
(** * Facts about the built-ins                                            *)
(* ===================================================================== *)

(** stdpp keeps [simpl] from unfolding the append of strings; the proofs
    below compute with it. *)
Arguments String.append !_ _ / : simpl nomatch.

Section PyFacts.

Local Open Scope string_scope.

Lemma app_assoc_str (a b c : string) : (a +:+ b) +:+ c = a +:+ (b +:+ c).
Proof. induction a as [|x a IH]; simpl; [done | by f_equal]. Qed.

Lemma startswith_spec (p s : string) :
  Py.startswith p s = true <-> exists post, s = p +:+ post.
Proof.
  revert s. induction p as [|a p IH]; intros s; simpl.
  - split; [intros _; by exists s | done].
  - destruct s as [|b s].
    + split; [done | intros [post H]; discriminate H].
    + destruct (Ascii.eqb_spec a b) as [->|Hne].
      * rewrite IH. split; intros [post H]; exists post; congruence.
      * split; [done | intros [post H]; congruence].
Qed.

Lemma contains_spec (sub s : string) :
  Py.contains sub s = true <-> Spec.occurs sub s.
Proof.
  unfold Spec.occurs. induction s as [|c s IH]; simpl.
  - rewrite orb_false_r, startswith_spec. split.
    + intros [post H]. by exists "", post.
    + intros ([|x pre] & post & H); [by exists post | discriminate H].
  - rewrite orb_true_iff, startswith_spec, IH. split.
    + intros [[post H] | (pre & post & H)].
      * by exists "", post.
      * exists (String c pre), post. simpl. by rewrite H.
    + intros ([|x pre] & post & H).
      * left. by exists post.
      * right. exists pre, post. simpl in H. congruence.
Qed.

(** A digit is neither white space nor a sign. *)
Lemma digit_not_space (c : ascii) : Py.is_digit c = true -> Py.is_space c = false.
Proof. unfold Py.is_digit, Py.is_space. lia. Qed.

Lemma digit_not_sign (c : ascii) :
  Py.is_digit c = true -> Ascii.eqb c "+" = false /\ Ascii.eqb c "-" = false.
Proof.
  intros H. split.
  - destruct (Ascii.eqb_spec c "+") as [->|]; [discriminate H | done].
  - destruct (Ascii.eqb_spec c "-") as [->|]; [discriminate H | done].
Qed.

Lemma rstrip_digits (s : string) :
  Spec.digits_only s = true -> Py.rstrip_by Py.is_space s = s.
Proof.
  induction s as [|c s IH]; simpl; [done|].
  intros [Hc Hs]%andb_true_iff. rewrite (IH Hs).
  destruct s; [by rewrite (digit_not_space c Hc) | done].
Qed.

Lemma strip_digits (s : string) : Spec.digits_only s = true -> Py.strip s = s.
Proof.
  intros H. unfold Py.strip, Py.strip_by.
  destruct s as [|c s]; [done|]. simpl in *.
  apply andb_true_iff in H as [Hc Hs].
  rewrite (digit_not_space c Hc).
  change (Py.rstrip_by Py.is_space (String c s) = String c s).
  apply rstrip_digits. simpl. by rewrite Hc, Hs.
Qed.

Lemma int_digits_value (s : string) (acc : Z) (seen : bool) :
  Spec.digits_only s = true -> s <> "" \/ seen = true ->
  Py.int_digits acc seen s = Some (Spec.digits_acc acc s).
Proof.
  revert acc seen. induction s as [|c s IH]; intros acc seen Hd Hs; simpl.
  - destruct Hs as [Hs | ->]; [done | done].
  - simpl in Hd. apply andb_true_iff in Hd as [Hc Hd].
    rewrite Hc. apply IH; [done | by right].
Qed.

(** [int] of a non-empty run of digits never raises. *)
Lemma int_of_digits (s : string) :
  Spec.digits_only s = true -> s <> "" ->
  Py.int s = Some (Spec.digits_value s).
Proof.
  intros Hd Hs. unfold Py.int. rewrite (strip_digits s Hd).
  destruct s as [|c d]; [done|].
  pose proof Hd as Hd'. simpl in Hd'. apply andb_true_iff in Hd' as [Hc _].
  destruct (digit_not_sign c Hc) as [-> ->].
  by apply int_digits_value; [| left].
Qed.

(** ** The search of [(\d+)%] *)

Lemma match_digits_pct_Some (s ds : string) :
  Py.match_digits_pct s = Some ds -> Spec.pct_int_at s "" ds.
Proof.
  revert ds. induction s as [|c s IH]; intros ds; cbn [Py.match_digits_pct]; [done|].
  destruct (Py.is_digit c) eqn:Hc; [|done].
  destruct (Py.match_digits_pct s) as [ds0|] eqn:Hm.
  - intros [= <-]. destruct (IH ds0 eq_refl) as (Hne & Hd & post & ->).
    split; [done|]. split; [by simpl; rewrite Hc, Hd|]. by exists post.
  - destruct (Py.startswith "%" s) eqn:Hp; [|done].
    intros [= <-]. apply startswith_spec in Hp as [post ->].
    split; [done|]. split; [by simpl; rewrite Hc|]. by exists post.
Qed.

Lemma match_digits_pct_None (s ds : string) :
  Py.match_digits_pct s = None -> ~ Spec.pct_int_at s "" ds.
Proof.
  revert ds. induction s as [|c s IH]; intros ds Hm (Hne & Hd & post & Hs).
  - destruct ds; [done | discriminate Hs].
  - destruct ds as [|x ds]; [done|]. simpl in Hs. injection Hs as <- ->.
    simpl in Hm, Hd. apply andb_true_iff in Hd as [Hc Hd]. rewrite Hc in Hm.
    destruct (Py.match_digits_pct (ds +:+ String "%" post)) eqn:Hm'; [done|].
    destruct ds as [|y ds].
    + simpl in Hm. discriminate Hm.
    + apply (IH (String y ds) eq_refl). repeat split; [done | done |].
      by exists post.
Qed.

Lemma pct_int_at_cons (c : ascii) (s pre ds : string) :
  Spec.pct_int_at (String c s) (String c pre) ds <-> Spec.pct_int_at s pre ds.
Proof.
  unfold Spec.pct_int_at. split; intros (Hne & Hd & post & H);
    (repeat split; [done | done |]); exists post; simpl in *; congruence.
Qed.

Lemma pct_int_at_head (c c' : ascii) (s pre ds : string) :
  Spec.pct_int_at (String c s) (String c' pre) ds -> c' = c.
Proof. intros (_ & _ & post & H). simpl in H. congruence. Qed.

(** The search returns the first integer followed by a percent sign. *)
Lemma search_digits_pct_Some (s ds : string) :
  Py.search_digits_pct s = Some ds -> Spec.first_pct_int s ds.
Proof.
  revert ds. induction s as [|c s IH]; intros ds; [done|].
  cbn [Py.search_digits_pct].
  destruct (Py.match_digits_pct (String c s)) as [ds0|] eqn:Hm.
  - intros [= <-]. exists "". split; [by apply match_digits_pct_Some|].
    intros; simpl; lia.
  - intros Hs. destruct (IH ds Hs) as (pre & Hat & Hmin).
    exists (String c pre). split; [by apply pct_int_at_cons|].
    intros [|c' pre'] ds' Hat'.
    + exfalso. exact (match_digits_pct_None _ _ Hm Hat').
    + pose proof (pct_int_at_head _ _ _ _ _ Hat') as ->.
      apply (proj1 (pct_int_at_cons _ _ _ _)) in Hat'.
      specialize (Hmin _ _ Hat'). simpl. lia.
Qed.

(** It finds nothing only when there is no such integer. *)
Lemma search_digits_pct_None (s : string) :
  Py.search_digits_pct s = None -> Spec.no_pct_int s.
Proof.
  induction s as [|c s IH]; intros Hs pre ds Hat.
  - destruct Hat as (Hne & _ & post & H).
    destruct pre, ds; simpl in H; done.
  - cbn [Py.search_digits_pct] in Hs.
    destruct (Py.match_digits_pct (String c s)) eqn:Hm; [done|].
    destruct pre as [|c' pre].
    + exact (match_digits_pct_None _ _ Hm Hat).
    + pose proof (pct_int_at_head _ _ _ _ _ Hat) as ->.
      apply (proj1 (pct_int_at_cons _ _ _ _)) in Hat. by apply (IH Hs pre ds).
Qed.

Lemma app_eq_length (a a' b b' : string) :
  String.length a = String.length a' -> a +:+ b = a' +:+ b' -> a = a' /\ b = b'.
Proof.
  revert a'. induction a as [|x a IH]; intros [|x' a'] Hl H; simpl in *;
    try done.
  injection H as -> H. injection Hl as Hl.
  destruct (IH a' Hl H) as [-> ->]. done.
Qed.

Lemma digits_before_pct_unique (ds ds' post post' : string) :
  Spec.digits_only ds = true -> Spec.digits_only ds' = true ->
  ds +:+ String "%" post = ds' +:+ String "%" post' -> ds = ds'.
Proof.
  revert ds'. induction ds as [|x ds IH]; intros [|x' ds'] Hd Hd' H;
    simpl in *; try done.
  - injection H as <- _. by apply andb_true_iff in Hd' as [Hx _].
  - injection H as -> _. by apply andb_true_iff in Hd as [Hx _].
  - injection H as -> H.
    apply andb_true_iff in Hd as [_ Hd]. apply andb_true_iff in Hd' as [_ Hd'].
    f_equal. by apply IH.
Qed.

(** There is only one first integer followed by a percent sign. *)
Lemma first_pct_int_unique (s ds ds' : string) :
  Spec.first_pct_int s ds -> Spec.first_pct_int s ds' -> ds = ds'.
Proof.
  intros (pre & Hat & Hmin) (pre' & Hat' & Hmin').
  pose proof (Hmin _ _ Hat') as H1. pose proof (Hmin' _ _ Hat) as H2.
  destruct Hat as (_ & Hd & post & Hs). destruct Hat' as (_ & Hd' & post' & Hs').
  rewrite Hs in Hs'.
  apply app_eq_length in Hs' as [_ Hs']; [|lia].
  by apply (digits_before_pct_unique _ _ post post').
Qed.

End PyFacts.

Example strip_ex : Py.strip "  42 " = "42"%string.
Proof. reflexivity. Qed.

Example split_ex : Py.split "=" "A=1=2" = ["A"; "1"; "2"]%string.
Proof. reflexivity. Qed.

Example int_ex :
  Py.int " -1_000 " = Some (-1000) /\ Py.int "abc" = None /\
  Py.int "" = None /\ Py.int "4__2" = None /\ Py.int "007" = Some 7.
Proof. repeat split; reflexivity. Qed.

Example search_ex :
  Py.search_digits_pct "1 battery; 12 of 85%; 3%" = Some "85"%string.
Proof. reflexivity. Qed.

(* ===================================================================== *)
(** * Configuration store                                                  *)
(* ===================================================================== *)

Section ConfigFacts.

Local Open Scope string_scope.
Implicit Types (m : gmap string json) (k : string).

(** On a JSON object the merge loop is the union with the defaults, the
    file first. *)
Lemma merge_defaults_obj (items : list (string * json)) m :
  Config.merge_defaults items (JObj m) = Some (JObj (m ∪ list_to_map items)).
Proof.
  revert m. induction items as [|[k d] items IH]; intros m; simpl.
  - by rewrite (right_id_L ∅ (∪)).
  - destruct (m !! k) as [v|] eqn:Hk.
    + rewrite bool_decide_eq_true_2 by eauto. rewrite IH. do 2 f_equal.
      apply map_eq; intros i. rewrite !lookup_union.
      destruct (decide (k = i)) as [<-|Hne].
      * by rewrite Hk, lookup_insert_eq, !union_Some_l.
      * by rewrite lookup_insert_ne.
    + rewrite bool_decide_eq_false_2 by (by intros [? ?]).
      simpl. rewrite IH. do 2 f_equal.
      by rewrite <- insert_union_l, insert_union_r.
Qed.

Lemma load_config_obj m :
  Config.load_config (Config.Parsed (JObj m)) = JObj (m ∪ Config.DEFAULT_CONFIG).
Proof. unfold Config.load_config. by rewrite merge_defaults_obj. Qed.

(** The table of the source holds the documented defaults and nothing
    else. *)
Lemma DEFAULT_CONFIG_documented k :
  Config.DEFAULT_CONFIG !! k = Config.documented_default k.
Proof.
  unfold Config.DEFAULT_CONFIG, Config.DEFAULT_ITEMS, Config.documented_default.
  simpl.
  repeat match goal with
  | |- context [String.eqb k ?x] =>
      destruct (String.eqb_spec k x) as [->|?]; [by simplify_map_eq|]
  end.
  by simplify_map_eq.
Qed.

Lemma migrate_field_settled k m :
  Spec.settled k m -> Config.migrate_field k m = Some m.
Proof.
  unfold Config.migrate_field. by intros [-> | [s ->]].
Qed.

Lemma migrate_field_Some k m m' :
  Config.migrate_field k m = Some m' ->
  Spec.settled k m' /\ forall k', k' <> k -> m' !! k' = m !! k'.
Proof.
  unfold Config.migrate_field, Spec.settled.
  destruct (m !! k) as [[| b | | | s | |]|] eqn:Hk; intros H; try done;
    injection H as <-.
  - split; [right; eexists; apply lookup_insert_eq|].
    intros k' Hne. by rewrite lookup_insert_ne.
  - split; [right; by exists s | done].
  - split; [by left | done].
Qed.

End ConfigFacts.

(** C6.  Whatever subset of the keys the persisted record holds, each
    documented key [k] with default [d] is present after [load_config] and
    holds the persisted value if there is one, else [d]; a missing file
    and a file that cannot be read or parsed give exactly
    [DEFAULT_CONFIG], whose entry for [k] is [d], and no error leaves
    [load_config]. *)
Theorem load_config_fills_defaults
    (m : gmap string json) (k : string) (d : json) :
  Config.documented_default k = Some d ->
  (exists m', Config.load_config (Config.Parsed (JObj m)) = JObj m' /\
     ((exists v, m !! k = Some v /\ m' !! k = Some v) \/
      (m !! k = None /\ m' !! k = Some d))) /\
  Config.load_config Config.NoFile = JObj Config.DEFAULT_CONFIG /\
  Config.load_config Config.BadFile = JObj Config.DEFAULT_CONFIG /\
  Config.DEFAULT_CONFIG !! k = Some d.
Proof.
  intros Hd. rewrite <- DEFAULT_CONFIG_documented in Hd.
  split; [|by repeat split].
  exists (m ∪ Config.DEFAULT_CONFIG). split; [apply load_config_obj|].
  rewrite lookup_union. destruct (m !! k) as [v|] eqn:Hk.
  - left. exists v. by rewrite union_Some_l.
  - right. by rewrite Hd.
Qed.

Lemma load_config_fills_defaults_witness :
  (exists m', Config.load_config
                (Config.Parsed (JObj {[ "upper_limit"%string := JInt 70 ]})) = JObj m' /\
     ((exists v, ({[ "upper_limit"%string := JInt 70 ]} : gmap string json)
                   !! "cpu_stress"%string = Some v /\
                 m' !! "cpu_stress"%string = Some v) \/
      (({[ "upper_limit"%string := JInt 70 ]} : gmap string json)
         !! "cpu_stress"%string = None /\
       m' !! "cpu_stress"%string = Some (JStr "high")))) /\
  Config.load_config Config.NoFile = JObj Config.DEFAULT_CONFIG /\
  Config.load_config Config.BadFile = JObj Config.DEFAULT_CONFIG /\
  Config.DEFAULT_CONFIG !! "cpu_stress"%string = Some (JStr "high").
Proof.
  apply (load_config_fills_defaults
           {[ "upper_limit"%string := JInt 70 ]} "cpu_stress" (JStr "high")).
  reflexivity.
Defined.

(** C9.  The migration of the legacy stress fields is idempotent:
    migrating a migrated configuration changes nothing (and a
    configuration on which the first migration raises has no second one). *)
Theorem migrate_idempotent (config : gmap string json) :
  Config.migrate config ≫= Config.migrate = Config.migrate config.
Proof.
  destruct (Config.migrate config) as [c2|] eqn:H2; [|done]. cbn.
  unfold Config.migrate in H2.
  destruct (Config.migrate_field "cpu_stress" config) as [c1|] eqn:H1; [|done].
  cbn in H2. apply migrate_field_Some in H1 as [Hs1 _].
  apply migrate_field_Some in H2 as [Hs2 Ho2].
  assert (Hs : Spec.settled "cpu_stress" c2).
  { unfold Spec.settled in *. by rewrite Ho2. }
  unfold Config.migrate.
  rewrite (migrate_field_settled _ _ Hs). cbn.
  by apply migrate_field_settled.
Qed.

(** Booleans become levels, levels stay. *)
Example migrate_legacy :
  Config.migrate {[ "cpu_stress" := JBool true; "gpu_stress" := JBool false;
                    "upper_limit" := JInt 80 ]}
  = Some {[ "cpu_stress" := JStr "high"; "gpu_stress" := JStr "off";
            "upper_limit" := JInt 80 ]}.
Proof. by vm_compute. Qed.

(** C10.  No validation: every entry of the parsed record, one of the
    documented keys or not, in its domain or not, is in the loaded
    configuration with the same value. *)
Theorem load_config_keeps_entries
    (m : gmap string json) (k : string) (v : json) :
  m !! k = Some v ->
  exists m', Config.load_config (Config.Parsed (JObj m)) = JObj m' /\
             m' !! k = Some v.
Proof.
  intros Hk. exists (m ∪ Config.DEFAULT_CONFIG). split; [apply load_config_obj|].
  by apply lookup_union_Some_l.
Qed.

Lemma load_config_keeps_entries_witness :
  ({[ "upper_limit" := JInt 999; "theme" := JStr "dark" ]} : gmap string json)
    !! "upper_limit" = Some (JInt 999) /\
  exists m',
    Config.load_config
      (Config.Parsed (JObj {[ "upper_limit" := JInt 999; "theme" := JStr "dark" ]}))
    = JObj m' /\
    m' !! "upper_limit" = Some (JInt 999).
Proof.
  split; [reflexivity|].
  apply (load_config_keeps_entries
           {[ "upper_limit" := JInt 999; "theme" := JStr "dark" ]}
           "upper_limit" (JInt 999)).
  reflexivity.
Defined.

(** An unknown key of the file is kept as well. *)
Example load_config_keeps_unknown_key :
  exists m',
    Config.load_config
      (Config.Parsed (JObj {[ "upper_limit" := JStr "max"; "theme" := JStr "dark" ]}))
    = JObj m' /\
    m' !! "theme" = Some (JStr "dark") /\ m' !! "upper_limit" = Some (JStr "max") /\
    m' !! "lower_limit" = Some (JInt 20).
Proof. eexists. split; [apply load_config_obj|]. repeat split; reflexivity. Qed.

(** A file that holds JSON but no record: the loop raises and the
    defaults are returned, unless every key happens to be found in the
    value, which is then returned as it is. *)
Example load_config_not_a_record :
  Config.load_config (Config.Parsed (JInt 5)) = JObj Config.DEFAULT_CONFIG /\
  Config.load_config (Config.Parsed (JArr [JInt 1])) = JObj Config.DEFAULT_CONFIG /\
  Config.load_config
    (Config.Parsed
       (JStr "upper_limit lower_limit pause_limit reset_limit cpu_stress gpu_stress"))
  = JStr "upper_limit lower_limit pause_limit reset_limit cpu_stress gpu_stress".
Proof. repeat split; reflexivity. Qed.

(* ===================================================================== *)
(** * Status probe                                                         *)
(* ===================================================================== *)

Section StatusFacts.

Local Open Scope string_scope.

(** The percentage of [get_battery_info] on a completed query. *)
Lemma get_battery_info_completed (rc : Z) (output : string) :
  Status.get_battery_info (RunCompleted rc output) =
  (match Py.search_digits_pct output with
   | Some ds => Spec.digits_value ds
   | None => 0
   end,
   Py.contains "charging" (Py.lower output) || Py.contains "AC Power" output).
Proof.
  unfold Status.get_battery_info.
  destruct (Py.search_digits_pct output) as [ds|] eqn:Hs; [|done].
  destruct (search_digits_pct_Some _ _ Hs) as (pre & (Hne & Hd & _) & _).
  by rewrite (int_of_digits ds Hd Hne).
Qed.

(** The cycle count never depends on the report query. *)
Lemma get_cycle_info_cycles (f : state_file) (sp : run_result) :
  fst (Status.get_cycle_info f sp) = fst (Status.read_cycles f).
Proof.
  unfold Status.get_cycle_info. destruct (Status.read_cycles f) as [c []].
  - by destruct sp.
  - done.
Qed.

(** The health is the one of the report as long as the read of the state
    file raised nothing. *)
Lemma get_cycle_info_health (f : state_file) (sp : run_result) :
  snd (Status.read_cycles f) = true ->
  snd (Status.get_cycle_info f sp) = Status.health_of_report sp.
Proof.
  unfold Status.get_cycle_info. destruct (Status.read_cycles f) as [c fin].
  simpl. intros ->. by destruct sp.
Qed.

End StatusFacts.

(** C7 as stated fails: the exit status is not looked at, and a text
    without a percentage still sets the charging flag. *)
Lemma get_battery_info_nonzero_exit :
  Status.get_battery_info (RunCompleted 1 "75%; charging") <> (0, false) /\
  Status.get_battery_info (RunCompleted 0 "Now drawing from 'AC Power'")
    <> (0, false).
Proof. split; vm_compute; discriminate. Qed.

(** C7, amended.  [get_battery_info] is total (nothing is raised).  When
    the query raises it returns [(0, False)].  When the query completes,
    whatever its exit status, the percentage is the first integer of the
    text immediately followed by a percent sign, [0] when there is none,
    and the charging flag tells whether the lower-cased text holds
    [charging] or the text holds [AC Power]. *)
Theorem get_battery_info_spec (rc : Z) (output : string) :
  Status.get_battery_info RunRaised = (0, false) /\
  exists percent charging,
    Status.get_battery_info (RunCompleted rc output) = (percent, charging) /\
    ((exists ds, Spec.first_pct_int output ds) \/ Spec.no_pct_int output) /\
    (forall ds, Spec.first_pct_int output ds -> percent = Spec.digits_value ds) /\
    (Spec.no_pct_int output -> percent = 0) /\
    (charging = true <->
       Spec.occurs "charging" (Py.lower output) \/ Spec.occurs "AC Power" output).
Proof.
  split; [done|]. rewrite get_battery_info_completed.
  eexists _, _. split; [done|].
  rewrite orb_true_iff, !contains_spec.
  destruct (Py.search_digits_pct output) as [ds0|] eqn:Hs.
  - apply search_digits_pct_Some in Hs.
    split; [left; by exists ds0|]. split; [|split; [|done]].
    + intros ds Hds. by rewrite (first_pct_int_unique _ _ _ Hds Hs).
    + intros Hno. destruct Hs as (pre & Hat & _). by destruct (Hno _ _ Hat).
  - apply search_digits_pct_None in Hs.
    split; [by right|]. split; [|done].
    intros ds (pre & Hat & _). by destruct (Hs _ _ Hat).
Qed.

Lemma get_battery_info_spec_witness :
  Spec.first_pct_int "Battery 0: 85%; discharging" "85" /\
  Status.get_battery_info (RunCompleted 0 "Battery 0: 85%; discharging")
  = (85, true).
Proof.
  assert (H : Spec.first_pct_int "Battery 0: 85%; discharging" "85")
    by (by apply search_digits_pct_Some).
  split; [exact H|].
  destruct (get_battery_info_spec 0 "Battery 0: 85%; discharging")
    as (_ & percent & charging & -> & _ & Hp & _ & Hc).
  rewrite (Hp _ H). f_equal.
  apply Hc. left. by apply contains_spec.
Defined.

(** C2 as stated fails: the report holds the health [95%], yet a state
    file whose counter is not a number, or one that cannot be read, makes
    [get_cycle_info] return the placeholder.  The exception leaves the one
    [try] block before the report is queried. *)
Lemma get_cycle_info_bad_counter_blanks_health :
  Status.health_of_report (RunCompleted 0 "      Maximum Capacity: 95%") = "95%" /\
  Status.get_cycle_info (StateContent "TOTAL_DISCHARGE_CYCLES=abc")
                        (RunCompleted 0 "      Maximum Capacity: 95%")
  <> (Status.cycles_of_file (StateContent "TOTAL_DISCHARGE_CYCLES=abc"),
      Status.health_of_report (RunCompleted 0 "      Maximum Capacity: 95%")) /\
  Status.get_cycle_info (StateContent "TOTAL_DISCHARGE_CYCLES=abc")
                        (RunCompleted 0 "      Maximum Capacity: 95%")
  = (0, "--") /\
  Status.get_cycle_info StateUnreadable
                        (RunCompleted 0 "      Maximum Capacity: 95%")
  = (0, "--").
Proof. repeat split; try reflexivity. vm_compute. discriminate. Qed.

(** C2, amended.  The cycle count of [get_cycle_info] does not depend on
    the report query: it is what the loop over the state file assigned,
    whether the query completes, fails or raises.  And whenever the read
    of the state file raises nothing, the result is the pair of the two
    values, each from its own source: the health is the one of the report
    (["--"] when absent or when the query raised). *)
Theorem get_cycle_info_independent (f : state_file) (sp : run_result) :
  (forall sp', fst (Status.get_cycle_info f sp) = fst (Status.get_cycle_info f sp')) /\
  fst (Status.get_cycle_info f sp) = fst (Status.read_cycles f) /\
  (snd (Status.read_cycles f) = true ->
   Status.get_cycle_info f sp
   = (Status.cycles_of_file f, Status.health_of_report sp)).
Proof.
  split; [|split].
  - intros sp'. by rewrite !get_cycle_info_cycles.
  - apply get_cycle_info_cycles.
  - intros Hfin.
    rewrite (surjective_pairing (Status.get_cycle_info f sp)).
    rewrite get_cycle_info_cycles, (get_cycle_info_health f sp Hfin).
    unfold Status.cycles_of_file.
    destruct (Status.read_cycles f) as [c fin]. simpl in *. by rewrite Hfin.
Qed.

Lemma get_cycle_info_independent_witness :
  snd (Status.read_cycles (StateContent "TOTAL_DISCHARGE_CYCLES=42")) = true /\
  Status.get_cycle_info (StateContent "TOTAL_DISCHARGE_CYCLES=42") RunRaised
  = (42, "--") /\
  Status.get_cycle_info (StateContent "TOTAL_DISCHARGE_CYCLES=42")
                        (RunCompleted 0 "      Maximum Capacity: 95%")
  = (42, "95%").
Proof.
  split; [reflexivity|]. split.
  - apply (proj2 (proj2 (get_cycle_info_independent
             (StateContent "TOTAL_DISCHARGE_CYCLES=42") RunRaised))).
    reflexivity.
  - apply (proj2 (proj2 (get_cycle_info_independent
             (StateContent "TOTAL_DISCHARGE_CYCLES=42")
             (RunCompleted 0 "      Maximum Capacity: 95%")))).
    reflexivity.
Defined.

(** A count assigned before the bad line is kept, not reset to [0]. *)
Example get_cycle_info_keeps_earlier_count :
  Status.get_cycle_info
    (StateContent (Stats.unlines ["TOTAL_DISCHARGE_CYCLES=5";
                                  "TOTAL_DISCHARGE_CYCLES=abc"]))
    (RunCompleted 0 "      Maximum Capacity: 95%")
  = (5, "--").
Proof. reflexivity. Qed.

(* ===================================================================== *)
(** * Statistics                                                           *)
(* ===================================================================== *)

Section StatsFacts.

Local Open Scope string_scope.

(** A duration line with a bad value is skipped and the scan goes on: the
    guard that the cycle-count line lacks. *)
Lemma scan_state_bad_active_secs (value : string) (rest : list string)
    (c : Stats.counters) :
  Stats.int_field ("TOTAL_ACTIVE_SECS=" +:+ value) = None ->
  Stats.scan_state (("TOTAL_ACTIVE_SECS=" +:+ value) :: rest) c
  = Stats.scan_state rest c.
Proof.
  intros H. cbn [Stats.scan_state].
  change (Py.startswith "TOTAL_DISCHARGE_CYCLES=" ("TOTAL_ACTIVE_SECS=" +:+ value))
    with false.
  change (Py.startswith "INITIAL_HEALTH=" ("TOTAL_ACTIVE_SECS=" +:+ value))
    with false.
  change (Py.startswith "INITIAL_APPLE_CYCLES=" ("TOTAL_ACTIVE_SECS=" +:+ value))
    with false.
  replace (Py.startswith "TOTAL_ACTIVE_SECS=" ("TOTAL_ACTIVE_SECS=" +:+ value))
    with true by (symmetry; apply startswith_spec; by exists value).
  cbv iota. by rewrite H.
Qed.

(** A cycle-count line with a bad value ends the scan: what follows is
    not read. *)
Lemma scan_state_bad_cycles (value : string) (rest : list string)
    (c : Stats.counters) :
  Stats.int_field ("TOTAL_DISCHARGE_CYCLES=" +:+ value) = None ->
  Stats.scan_state (("TOTAL_DISCHARGE_CYCLES=" +:+ value) :: rest) c = c.
Proof.
  intros H. cbn [Stats.scan_state].
  replace (Py.startswith "TOTAL_DISCHARGE_CYCLES="
             ("TOTAL_DISCHARGE_CYCLES=" +:+ value))
    with true by (symmetry; apply startswith_spec; by exists value).
  by rewrite H.
Qed.

Lemma percent_not_NA (s : string) : s +:+ "%" <> "N/A".
Proof. destruct s as [|a [|b [|c [|d s]]]]; simpl; congruence. Qed.

Lemma mAh_not_NA (s : string) : s +:+ " mAh" <> "N/A".
Proof. destruct s as [|a [|b [|c [|d s]]]]; simpl; congruence. Qed.

End StatsFacts.

(** C1, the failing input.  The file below has a cycle count that is not a
    number, then two well-formed lines.  Without the first line both are
    extracted; with it neither is: [int] raises outside any inner [try],
    and the [except] around the whole read ends the scan. *)
Theorem read_state_bad_cycles_drops_siblings :
  let good := ["TOTAL_ACTIVE_SECS=120"; "INITIAL_HEALTH=88"] in
  let bad := "TOTAL_DISCHARGE_CYCLES=abc" :: good in
  Stats.total_active_secs (Stats.read_state (StateContent (Stats.unlines good))) = 120 /\
  Stats.initial_health (Stats.read_state (StateContent (Stats.unlines good))) = "88%" /\
  Stats.read_state (StateContent (Stats.unlines bad)) = Stats.initial_counters /\
  Status.read_cycles
    (StateContent (Stats.unlines ["TOTAL_DISCHARGE_CYCLES=abc";
                                  "TOTAL_DISCHARGE_CYCLES=42"])) = (0, false).
Proof. repeat split; reflexivity. Qed.

(** The scenario of the specification: a file with a cycle count and a
    quoted initial health, and nothing else. *)
Example read_state_scenario :
  Stats.read_state
    (StateContent (Stats.unlines ["TOTAL_DISCHARGE_CYCLES=42";
                                  "INITIAL_HEALTH=" +:+ Stats.quoted "88"; ""]))
  = Stats.set_initial_health "88%"
      (Stats.set_script_cycles 42 Stats.initial_counters).
Proof. reflexivity. Qed.

(** C3 as stated fails: 4780 of 5000 mAh is 95.6 percent, reported as
    [95%] and not as the nearest integer. *)
Lemma calc_health_not_rounded :
  0 < 5000 /\
  Stats.round_div (4780 * 100) 5000 = 96 /\
  fst (Stats.calc_health (Some 4780) (Some 5000)) = "95%" /\
  fst (Stats.calc_health (Some 4780) (Some 5000))
  <> Py.str (Stats.round_div (4780 * 100) 5000) +:+ "%".
Proof. repeat split; vm_compute; congruence. Qed.

(** C3, amended.  For a non-zero nominal capacity and a positive design
    capacity, of the size of a register (where the float quotient has the
    integer part of the exact one), the calculated health is
    [nominal * 100 / design] truncated toward zero, as a percent string,
    and the capacity is [nominal/design mAh]; with a register missing or a
    design capacity that is not positive both are [N/A].  The capacity is
    formatted exactly when the calculated health is. *)
Theorem calc_health_truncates (nominal_cap design_cap : option Z) :
  (forall n d, nominal_cap = Some n -> design_cap = Some d -> n <> 0 -> 0 < d ->
     Z.abs (n * 100) + d < 2 ^ 53 ->
     Stats.calc_health nominal_cap design_cap
     = (Py.str (n * 100 ÷ d) +:+ "%", Py.str n +:+ "/" +:+ Py.str d +:+ " mAh")) /\
  (nominal_cap = None \/ design_cap = None \/
   (exists d, design_cap = Some d /\ d <= 0) ->
     Stats.calc_health nominal_cap design_cap = ("N/A", "N/A")) /\
  (fst (Stats.calc_health nominal_cap design_cap) = "N/A" <->
   snd (Stats.calc_health nominal_cap design_cap) = "N/A").
Proof.
  unfold Stats.calc_health. repeat split.
  - intros n d -> -> Hn Hd _.
    by rewrite (proj2 (Z.eqb_neq n 0)), (proj2 (Z.eqb_neq d 0)),
               (proj2 (Z.ltb_lt 0 d)) by lia.
  - intros [-> | [-> | (d & -> & Hd)]]; [done | by destruct nominal_cap |].
    destruct nominal_cap as [n|]; [|done].
    by rewrite (proj2 (Z.ltb_ge 0 d)), andb_false_r by lia.
  - destruct nominal_cap as [n|], design_cap as [d|]; try done.
    destruct (negb (n =? 0) && negb (d =? 0) && (0 <? d)); [|done].
    cbn [fst]. intros H. by apply percent_not_NA in H.
  - destruct nominal_cap as [n|], design_cap as [d|]; try done.
    destruct (negb (n =? 0) && negb (d =? 0) && (0 <? d)); [|done].
    cbn [snd]. intros H.
    rewrite <- !app_assoc_str in H. by apply mAh_not_NA in H.
Qed.

Lemma calc_health_truncates_witness :
  Stats.calc_health (Some 4780) (Some 5000) = ("95%", "4780/5000 mAh").
Proof.
  apply (proj1 (calc_health_truncates (Some 4780) (Some 5000)) 4780 5000);
    [reflexivity | reflexivity | lia | lia | reflexivity].
Defined.

(** C8.  [fmt_time] gives [<h>h <m>m] from one hour on and [<m>m] below,
    the minutes being [(secs % 3600) // 60], truncated; this holds for
    every integer, so for every non-negative number of seconds. *)
Theorem fmt_time_spec (secs : Z) :
  Stats.fmt_time secs =
    (if 3600 <=? secs
     then Py.str (secs / 3600) +:+ "h " +:+ Py.str (secs mod 3600 / 60) +:+ "m"
     else Py.str (secs mod 3600 / 60) +:+ "m") /\
  Stats.fmt_time 0 = "0m" /\ Stats.fmt_time 59 = "0m" /\
  Stats.fmt_time 90 = "1m" /\ Stats.fmt_time 3661 = "1h 1m".
Proof.
  split; [|by repeat split].
  unfold Stats.fmt_time.
  destruct (Z.eqb_spec secs 0) as [->|Hne]; [done|].
  destruct (Z.leb_spec 3600 secs) as [Hge|Hlt].
  - assert (0 < secs / 3600) by (apply Z.div_str_pos; lia).
    by rewrite (proj2 (Z.ltb_lt 0 _)).
  - assert (secs / 3600 <= 0)
      by (apply Z.lt_succ_r, Z.div_lt_upper_bound; lia).
    by rewrite (proj2 (Z.ltb_ge 0 _)).
Qed.

(* ===================================================================== *)
(** * Session control                                                      *)
(* ===================================================================== *)

Section SessionFacts.

Import Session.

(** The title of every item of the percentage submenus parses back to its
    value. *)
Lemma menu_title_parses (val : Z) :
  val ∈ menu_percents ->
  Py.int (Py.remove_char "%" (menu_title val)) = Some val.
Proof.
  unfold menu_percents. intros H.
  repeat (apply elem_of_cons in H as [-> | H]; [reflexivity|]).
  by apply elem_of_nil in H.
Qed.

(** [update_status] never leaves a handle on a process that has exited. *)
Lemma update_status_process (a : app) :
  script_process (update_status a) = active_pid a.
Proof.
  unfold update_status. destruct (active_pid a) as [pid|] eqn:Ha; [|done].
  unfold active_pid in Ha. destruct (script_process a) as [p|]; [|done].
  by case_bool_decide.
Qed.

Lemma update_status_active (a : app) :
  active_pid (update_status a) = active_pid a.
Proof.
  unfold update_status. destruct (active_pid a) as [pid|] eqn:Ha; done.
Qed.

Lemma update_status_other (a : app) :
  config (update_status a) = config a /\
  config_on_disk (update_status a) = config_on_disk a /\
  running (update_status a) = running a /\
  log (update_status a) = log a.
Proof. unfold update_status. by destruct (active_pid a). Qed.

(** The shared block stops the script when one runs, and logs the kills of
    the stress helpers and the maintain command after that. *)
Lemma hold_at_spec (e : env) (val : Z) (a : app) :
  active_pid (hold_at e val a) = None /\
  config (hold_at e val a) = config a /\
  config_on_disk (hold_at e val a) = config_on_disk a /\
  log (hold_at e val a) =
    log a ++ Spec.stop_events e a ++
    [Pkill ["-9"; "stress-ng"]; Pkill ["-f"; "ffmpeg.*videotoolbox"];
     BatteryCmd ["maintain"; Py.str val]].
Proof.
  unfold hold_at, Spec.stop_events.
  destruct (active_pid a) as [pid|] eqn:Ha.
  - repeat split; simpl.
    destruct (killpg_ok e); simpl; by rewrite <- ?app_assoc.
  - repeat split; simpl; [|by rewrite <- ?app_assoc].
    unfold active_pid in *. simpl. done.
Qed.

Lemma save_config_spec (e : env) (a : app) :
  write_ok e = true ->
  exists a1, save_config e a = Returned a1 /\
    config a1 = config a /\ script_process a1 = script_process a /\
    config_on_disk a1 = Some (config a) /\ running a1 = running a /\
    log a1 = log a ++ [SaveConfig (config a)].
Proof. intros Hw. unfold save_config. rewrite Hw. by eexists. Qed.

(** Whether a session is active depends on the handle and on the process
    table only. *)
Lemma active_pid_ext (a b : app) :
  script_process a = script_process b -> running a = running b ->
  active_pid a = active_pid b.
Proof. unfold active_pid. by intros -> ->. Qed.

(** What the two override handlers share once the title is parsed. *)
Lemma override_common (e : env) (val : Z) (field msg : string) (a : app) :
  write_ok e = true ->
  exists a',
    bind (save_config e (set_config field (JInt val) a))
      (fun a1 => Returned (update_status
                             (emit [Notification msg] (hold_at e val a1))))
      = Returned a' /\
    config a' = <[field := JInt val]> (config a) /\
    config_on_disk a' = Some (config a') /\
    script_process a' = None /\
    log a' =
      log a ++ [SaveConfig (config a')] ++ Spec.stop_events e a ++
      [Pkill ["-9"; "stress-ng"]; Pkill ["-f"; "ffmpeg.*videotoolbox"];
       BatteryCmd ["maintain"; Py.str val]; Notification msg].
Proof.
  intros Hw.
  destruct (save_config_spec e (set_config field (JInt val) a) Hw)
    as (a1 & -> & Hc1 & Hp1 & Hd1 & Hr1 & Hl1).
  cbn [bind]. eexists. split; [reflexivity|].
  destruct (hold_at_spec e val a1) as (Hact & Hcfg & Hdisk & Hlog).
  set (h := hold_at e val a1) in *.
  destruct (update_status_other (emit [Notification msg] h))
    as (-> & -> & _ & ->).
  rewrite update_status_process.
  change (active_pid (emit [Notification msg] h)) with (active_pid h).
  cbn [emit config config_on_disk log].
  rewrite Hcfg, Hdisk, Hlog, Hc1, Hd1, Hl1, Hact.
  assert (Hs : Spec.stop_events e a1 = Spec.stop_events e a).
  { unfold Spec.stop_events.
    by rewrite (active_pid_ext a1 a) by (by rewrite ?Hp1, ?Hr1). }
  rewrite Hs. cbn [set_config config log].
  repeat split. by rewrite <- !app_assoc.
Qed.

(** From an active session, [toggle_cycling] signals the process group,
    falls back on the process itself, and forgets the handle. *)
Lemma toggle_cycling_stops (e : env) (a : app) (pid : nat) :
  active_pid a = Some pid ->
  exists a', toggle_cycling e a = Returned a' /\
    script_process a' = None /\
    config a' = config a /\
    log a' = log a ++
      (if killpg_ok e then [Killpg pid] else [Killpg pid; Terminate pid]) ++
      [Notification "Cycling stopped"].
Proof.
  intros Ha. unfold toggle_cycling. rewrite Ha. eexists. split; [done|].
  rewrite update_status_process.
  destruct (update_status_other
              (emit [Notification "Cycling stopped"] (kill_script e pid a)))
    as (-> & _ & _ & ->).
  repeat split. simpl. by rewrite <- app_assoc.
Qed.

End SessionFacts.

(** C4.  For both roles and from any state, with or without a running
    session: the handler stores the selected value in its limit field and
    writes the configuration with it, then stops the session if one runs,
    kills the stress helpers and calls [battery maintain <value>]; no
    process is tracked when it returns.  The value is the one of the menu
    item chosen, and the configuration file is taken to be writable (a
    failed write propagates). *)
Theorem override_to_percent_holds
    (r : Session.role) (val : Z) (e : Session.env) (a : Session.app) :
  val ∈ Session.menu_percents ->
  Session.write_ok e = true ->
  exists a',
    Session.override_to_percent r e (Session.menu_title val) a
      = Session.Returned a' /\
    Session.config a' = <[Session.limit_field r := JInt val]> (Session.config a) /\
    Session.config a' !! Session.limit_field r = Some (JInt val) /\
    Session.config_on_disk a' = Some (Session.config a') /\
    Session.script_process a' = None /\
    Session.idle a' /\
    Session.log a' =
      Session.log a ++ [Session.SaveConfig (Session.config a')] ++
      Spec.stop_events e a ++
      [Session.Pkill ["-9"; "stress-ng"];
       Session.Pkill ["-f"; "ffmpeg.*videotoolbox"];
       Session.BatteryCmd ["maintain"; Py.str val];
       Session.Notification (Spec.override_message r val)].
Proof.
  intros Hval Hw.
  assert (H : forall field msg,
    exists a',
      Session.bind
        (Session.save_config e (Session.set_config field (JInt val) a))
        (fun a1 => Session.Returned
           (Session.update_status
              (Session.emit [Session.Notification msg] (Session.hold_at e val a1))))
        = Session.Returned a' /\
      Session.config a' = <[field := JInt val]> (Session.config a) /\
      Session.config_on_disk a' = Some (Session.config a') /\
      Session.script_process a' = None /\
      Session.log a' =
        Session.log a ++ [Session.SaveConfig (Session.config a')] ++
        Spec.stop_events e a ++
        [Session.Pkill ["-9"; "stress-ng"];
         Session.Pkill ["-f"; "ffmpeg.*videotoolbox"];
         Session.BatteryCmd ["maintain"; Py.str val];
         Session.Notification msg])
    by (intros; by apply override_common).
  destruct (H (Session.limit_field r) (Spec.override_message r val))
    as (a' & Hrun & Hc & Hd & Hp & Hl).
  exists a'. split.
  - rewrite <- Hrun.
    destruct r; unfold Session.override_to_percent, Session.pause_at_percent,
      Session.stop_at_percent; by rewrite (menu_title_parses val Hval).
  - repeat split; try done.
    + rewrite Hc. apply lookup_insert_eq.
    + unfold Session.idle, Session.active_pid. by rewrite Hp.
Qed.

Lemma override_to_percent_holds_witness :
  80 ∈ Session.menu_percents /\
  Session.write_ok (Spec.fair_env 8) = true /\
  exists a',
    Session.override_to_percent Session.Reset (Spec.fair_env 8)
      (Session.menu_title 80) (Spec.cycling_app 7) = Session.Returned a' /\
    Session.config a' !! "reset_limit" = Some (JInt 80) /\
    Session.config_on_disk a' = Some (Session.config a') /\
    Session.script_process a' = None /\
    Session.log a' =
      [Session.SaveConfig (Session.config a'); Session.Killpg 7;
       Session.Pkill ["-9"; "stress-ng"];
       Session.Pkill ["-f"; "ffmpeg.*videotoolbox"];
       Session.BatteryCmd ["maintain"; "80"];
       Session.Notification "Stopped - reset to 80% limit"].
Proof.
  assert (Hval : 80 ∈ Session.menu_percents)
    by (unfold Session.menu_percents; rewrite !elem_of_cons; tauto).
  split; [exact Hval|]. split; [reflexivity|].
  destruct (override_to_percent_holds Session.Reset 80 (Spec.fair_env 8)
              (Spec.cycling_app 7) Hval eq_refl)
    as (a' & Hrun & _ & Hk & Hd & Hp & _ & Hl).
  exists a'. repeat split; [exact Hrun | exact Hk | exact Hd | exact Hp |].
  exact Hl.
Defined.

(** C5.  From [Idle], [toggle_cycling] writes the configuration, launches
    the script and keeps its handle: the session is [Active] (the
    configuration file being writable and the script still running when
    the handler ends).  A second [toggle_cycling] signals the process
    group, terminates the tracked process if that fails, drops the handle
    and leaves the session [Idle]. *)
Theorem toggle_cycling_flips
    (e1 e2 : Session.env) (a : Session.app) (pid : nat) :
  Session.idle a ->
  Session.write_ok e1 = true ->
  Session.spawn e1 = Some pid ->
  Session.child_runs e1 = true ->
  exists a1 a2,
    Session.toggle_cycling e1 a = Session.Returned a1 /\
    Session.script_process a1 = Some pid /\
    Session.active a1 /\
    Session.config a1 = Session.config a /\
    Session.config_on_disk a1 = Some (Session.config a) /\
    Session.log a1 =
      Session.log a ++
      [Session.SaveConfig (Session.config a); Session.Popen pid;
       Session.Notification "Cycling started"] /\
    Session.toggle_cycling e2 a1 = Session.Returned a2 /\
    Session.script_process a2 = None /\
    Session.idle a2 /\
    Session.log a2 =
      Session.log a1 ++
      (if Session.killpg_ok e2 then [Session.Killpg pid]
       else [Session.Killpg pid; Session.Terminate pid]) ++
      [Session.Notification "Cycling stopped"].
Proof.
  intros Hidle Hw Hs Hc.
  assert (H1 : exists a1,
    Session.toggle_cycling e1 a = Session.Returned a1 /\
    Session.script_process a1 = Some pid /\
    Session.active_pid a1 = Some pid /\
    Session.config a1 = Session.config a /\
    Session.config_on_disk a1 = Some (Session.config a) /\
    Session.log a1 =
      Session.log a ++
      [Session.SaveConfig (Session.config a); Session.Popen pid;
       Session.Notification "Cycling started"]).
  { unfold Session.toggle_cycling. rewrite Hidle.
    destruct (save_config_spec e1 a Hw) as (s & -> & Hc1 & _ & Hd1 & _ & Hl1).
    cbn [Session.bind]. rewrite Hs, Hc. eexists. split; [reflexivity|].
    set (b := Session.emit _ _).
    assert (Hb : Session.active_pid b = Some pid).
    { unfold Session.active_pid, b. cbn.
      rewrite bool_decide_eq_true_2; [done | set_solver]. }
    rewrite update_status_process, update_status_active, Hb.
    destruct (update_status_other b) as (-> & -> & _ & ->).
    unfold b. cbn. rewrite Hc1, Hd1, Hl1.
    repeat split. by rewrite <- !app_assoc. }
  destruct H1 as (a1 & Hrun1 & Hp1 & Ha1 & Hcfg1 & Hd1 & Hl1).
  destruct (toggle_cycling_stops e2 a1 pid Ha1) as (a2 & Hrun2 & Hp2 & _ & Hl2).
  exists a1, a2. repeat split; try done.
  - unfold Session.active. by rewrite Ha1.
  - unfold Session.idle, Session.active_pid. by rewrite Hp2.
Qed.

Lemma toggle_cycling_flips_witness :
  Session.idle Spec.fresh_app /\
  exists a1 a2,
    Session.toggle_cycling (Spec.fair_env 7) Spec.fresh_app
      = Session.Returned a1 /\
    Session.script_process a1 = Some 7%nat /\
    Session.toggle_cycling (Spec.fair_env 8) a1 = Session.Returned a2 /\
    Session.script_process a2 = None /\
    Session.log a2 =
      [Session.SaveConfig Config.DEFAULT_CONFIG; Session.Popen 7;
       Session.Notification "Cycling started"; Session.Killpg 7;
       Session.Notification "Cycling stopped"].
Proof.
  split; [reflexivity|].
  destruct (toggle_cycling_flips (Spec.fair_env 7) (Spec.fair_env 8)
              Spec.fresh_app 7 eq_refl eq_refl eq_refl eq_refl)
    as (a1 & a2 & Hrun1 & Hp1 & _ & _ & _ & Hl1 & Hrun2 & Hp2 & _ & Hl2).
  exists a1, a2. repeat split; [exact Hrun1 | exact Hp1 | exact Hrun2 | exact Hp2 |].
  rewrite Hl2, Hl1. reflexivity.
Defined.

(** Why the hypotheses: a script that has already exited when the handler
    polls it leaves the session [Idle]; a configuration file that cannot
    be written makes the handlers raise before anything else is done. *)
Example toggle_cycling_child_gone :
  exists a1,
    Session.toggle_cycling
      {| Session.write_ok := true; Session.killpg_ok := true;
         Session.spawn := Some 7%nat; Session.child_runs := false |}
      Spec.fresh_app = Session.Returned a1 /\
    Session.script_process a1 = None.
Proof. eexists. split; [reflexivity|]. by vm_compute. Qed.

Example pause_at_percent_write_fails :
  exists a1,
    Session.pause_at_percent
      {| Session.write_ok := false; Session.killpg_ok := true;
         Session.spawn := None; Session.child_runs := true |}
      "50%" (Spec.cycling_app 7) = Session.Raised a1 /\
    Session.config_on_disk a1 = Some Config.DEFAULT_CONFIG /\
    Session.script_process a1 = Some 7%nat /\
    Session.log a1 = [].
Proof. eexists. split; [reflexivity|]. by vm_compute. Qed.

(* ===================================================================== *)
(** * Printing and parsing integers                                        *)
(* ===================================================================== *)

Section IntStr.

Local Open Scope string_scope.

Lemma uint_digits_only (d : Decimal.uint) :
  Spec.digits_only (NilEmpty.string_of_uint d) = true.
Proof. induction d; simpl; auto. Qed.

Lemma int_digits_of_uint_acc (d : Decimal.uint) (p : positive) :
  Py.int_digits (Z.pos p) true (NilEmpty.string_of_uint d)
  = Some (Z.pos (Pos.of_uint_acc d p)).
Proof.
  revert p. induction d; intros p;
    cbn [NilEmpty.string_of_uint Py.int_digits Pos.of_uint_acc];
    [done | ..];
    match goal with
    | |- context [Py.is_digit ?c] => change (Py.is_digit c) with true; cbv iota
    end;
    match goal with
    | |- Py.int_digits ?z true _ = Some (Z.pos (Pos.of_uint_acc _ ?q)) =>
        replace z with (Z.pos q);
        [apply IHd |
         match goal with
         | |- context [Py.digit_val ?c] =>
             let v := eval vm_compute in (Py.digit_val c) in
             change (Py.digit_val c) with v
         end; lia]
    end.
Qed.

Lemma int_digits_of_uint (d : Decimal.uint) :
  Py.int_digits 0 true (NilEmpty.string_of_uint d) = Some (Z.of_uint d).
Proof.
  unfold Z.of_uint.
  induction d; cbn [NilEmpty.string_of_uint Py.int_digits Pos.of_uint];
    [done | ..];
    match goal with
    | |- context [Py.is_digit ?c] => change (Py.is_digit c) with true; cbv iota
    end;
    [exact IHd | ..];
    match goal with
    | |- Py.int_digits ?z true _ = Some (Z.of_N (N.pos (Pos.of_uint_acc _ ?q))) =>
        change z with (Z.pos q)
    end; apply int_digits_of_uint_acc.
Qed.

Lemma rstrip_no_space (s : string) :
  Props.all_chars (fun c => negb (Py.is_space c)) s = true ->
  Py.rstrip_by Py.is_space s = s.
Proof.
  induction s as [|c s IH]; simpl; [done|].
  intros [Hc Hs]%andb_true_iff. rewrite (IH Hs).
  destruct s; [|done]. by apply negb_true_iff in Hc as ->.
Qed.

(** [strip] leaves a string without white space as it is. *)
Lemma strip_no_space (s : string) :
  Props.all_chars (fun c => negb (Py.is_space c)) s = true -> Py.strip s = s.
Proof.
  intros H. unfold Py.strip, Py.strip_by.
  replace (Py.lstrip_by Py.is_space s) with s; [by apply rstrip_no_space|].
  destruct s as [|c s]; [done|]. simpl in *.
  apply andb_true_iff in H as [Hc _]. by apply negb_true_iff in Hc as ->.
Qed.

Lemma digits_no_space (s : string) :
  Spec.digits_only s = true ->
  Props.all_chars (fun c => negb (Py.is_space c)) s = true.
Proof.
  induction s as [|c s IH]; simpl; [done|].
  intros [Hc Hs]%andb_true_iff. by rewrite (digit_not_space c Hc), IH.
Qed.

Lemma int_digits_unseen (s : string) (c : ascii) :
  Py.is_digit c = true ->
  Py.int_digits 0 false (String c s) = Py.int_digits 0 true (String c s).
Proof. intros Hc. simpl. by rewrite Hc. Qed.

Lemma int_of_string_of_uint (d : Decimal.uint) :
  Py.int (NilZero.string_of_uint d) = Some (Z.of_uint d).
Proof.
  destruct d; [reflexivity | ..];
    unfold NilZero.string_of_uint;
    match goal with
    | |- Py.int (NilEmpty.string_of_uint ?u) = _ =>
        pose proof (uint_digits_only u) as Hd;
        rewrite <- (int_digits_of_uint u);
        unfold Py.int; rewrite (strip_no_space _ (digits_no_space _ Hd));
        cbn [NilEmpty.string_of_uint] in *
    end;
    match goal with
    | |- context [Ascii.eqb ?c "+"] =>
        change (Ascii.eqb c "+") with false;
        change (Ascii.eqb c "-") with false; cbv iota
    end; by apply int_digits_unseen.
Qed.

Lemma int_of_string_of_int (i : Decimal.int) :
  Py.int (NilZero.string_of_int i) = Some (Z.of_int i).
Proof.
  destruct i as [d|d]; [apply int_of_string_of_uint|].
  cbn [NilZero.string_of_int Z.of_int].
  pose proof (int_of_string_of_uint d) as H. unfold Py.int in *.
  assert (Hs : Py.strip (NilZero.string_of_uint d) = NilZero.string_of_uint d).
  { apply strip_no_space, digits_no_space.
    destruct d; try apply uint_digits_only. reflexivity. }
  assert (Hs' : Py.strip (String "-" (NilZero.string_of_uint d))
                = String "-" (NilZero.string_of_uint d)).
  { apply strip_no_space. simpl. apply digits_no_space.
    destruct d; try apply uint_digits_only. reflexivity. }
  rewrite Hs in H. rewrite Hs'.
  change (Ascii.eqb "-" "+") with false. change (Ascii.eqb "-" "-") with true.
  cbv iota.
  destruct d; [reflexivity | ..];
    unfold NilZero.string_of_uint in *; cbn [NilEmpty.string_of_uint] in *;
    match type of H with
    | context [Ascii.eqb ?c "+"] =>
        change (Ascii.eqb c "+") with false in H;
        change (Ascii.eqb c "-") with false in H; cbv iota in H
    end; by rewrite H.
Qed.

(** Parsing what [str] prints gives the number back. *)
Lemma int_str (n : Z) : Py.int (Py.str n) = Some n.
Proof. unfold Py.str. by rewrite int_of_string_of_int, DecimalZ.of_to. Qed.

Lemma all_chars_digits (s : string) :
  Props.all_chars Py.is_digit s = Spec.digits_only s.
Proof. induction s as [|c s IH]; simpl; [done | by rewrite IH]. Qed.

Lemma uint_sign_free (d : Decimal.uint) :
  Props.all_chars Py.is_digit (NilZero.string_of_uint d) = true.
Proof.
  rewrite all_chars_digits.
  destruct d; try exact (uint_digits_only _); reflexivity.
Qed.

Lemma remove_percent_digits (s : string) :
  Spec.digits_only s = true -> Py.remove_char "%" (s +:+ "%") = s.
Proof.
  induction s as [|c s IH]; [done|].
  cbn [Py.remove_char String.append Spec.digits_only].
  intros [Hc Hs]%andb_true_iff.
  destruct (Ascii.eqb_spec "%" c) as [<-|_]; [discriminate Hc|].
  by rewrite (IH Hs).
Qed.

(** The title of a percentage item, whatever its value, parses back to
    the value. *)
Lemma title_parses (val : Z) :
  Py.int (Py.remove_char "%" (Session.menu_title val)) = Some val.
Proof.
  rewrite <- (int_str val). f_equal.
  unfold Session.menu_title, Py.str.
  destruct (Z.to_int val) as [d|d]; cbn [NilZero.string_of_int].
  - apply remove_percent_digits. rewrite <- all_chars_digits.
    apply uint_sign_free.
  - cbn [Py.remove_char String.append].
    change (Ascii.eqb "%" "-") with false. cbv iota.
    f_equal. apply remove_percent_digits.
    rewrite <- all_chars_digits. apply uint_sign_free.
Qed.


End IntStr.

(* ===================================================================== *)
(** * The limit and stress handlers                                        *)
(* ===================================================================== *)

Section MenuFacts.

Import Session.

(** Selecting [title] in a menu whose titles are the images of distinct
    values under an injective naming checks that item and no other. *)
Lemma mark_items_one {A} `{EqDecision A} (f : A -> string) (vals : list A)
    (val : A) :
  (forall x y, f x = f y -> x = y) -> NoDup vals -> val ∈ vals ->
  filter (fun it => it.2 = 1) (Menu.mark_items (f val) (f <$> vals))
  = [(f val, 1)].
Proof.
  intros Hinj Hnd Hin.
  assert (Hcons : forall x vs,
            Menu.mark_items (f val) (f <$> x :: vs)
            = (f x, if String.eqb (f x) (f val) then 1 else 0)
                :: Menu.mark_items (f val) (f <$> vs)) by done.
  assert (Hout : forall vs, val ∉ vs ->
            filter (fun it => it.2 = 1) (Menu.mark_items (f val) (f <$> vs)) = []).
  { induction vs as [|x vs IH]; intros Hx; [done|].
    apply not_elem_of_cons in Hx as [Hne Hx]. rewrite Hcons.
    rewrite filter_cons_False; [by apply IH|].
    cbn. destruct (String.eqb_spec (f x) (f val)) as [E|_]; [|done].
    by apply Hinj in E. }
  induction Hnd as [|x vs Hx Hnd IH]; [by apply elem_of_nil in Hin|].
  rewrite Hcons. apply elem_of_cons in Hin as [<- | Hin].
  - rewrite filter_cons_True by (cbn; by rewrite String.eqb_refl).
    rewrite String.eqb_refl. f_equal. by apply Hout.
  - rewrite filter_cons_False; [by apply IH|].
    cbn. destruct (String.eqb_spec (f x) (f val)) as [E|_]; [|done].
    apply Hinj in E as ->. done.
Qed.

End MenuFacts.

(** X1.  [set_upper_limit] and [set_lower_limit] accept the title of any
    percentage item: the value is stored under the handler's key and
    written to the file (when it can be written), every other entry is
    kept, and the session is left alone: the tracked process and the
    process table are unchanged and nothing but the write is done. *)
Theorem set_limit_stores (e : Session.env) (val : Z) (a : Session.app) :
  Session.write_ok e = true ->
  (exists a',
     Menu.set_upper_limit e (Session.menu_title val) a = Session.Returned a' /\
     Session.config a' = <["upper_limit" := JInt val]> (Session.config a) /\
     Session.config_on_disk a' = Some (Session.config a') /\
     Session.script_process a' = Session.script_process a /\
     Session.running a' = Session.running a /\
     Session.log a' = Session.log a ++ [Session.SaveConfig (Session.config a')]) /\
  (exists a',
     Menu.set_lower_limit e (Session.menu_title val) a = Session.Returned a' /\
     Session.config a' = <["lower_limit" := JInt val]> (Session.config a) /\
     Session.config_on_disk a' = Some (Session.config a') /\
     Session.script_process a' = Session.script_process a /\
     Session.running a' = Session.running a /\
     Session.log a' = Session.log a ++ [Session.SaveConfig (Session.config a')]).
Proof.
  intros Hw. unfold Menu.set_upper_limit, Menu.set_lower_limit.
  rewrite title_parses. unfold Session.save_config. rewrite Hw.
  split; eexists; (split; [reflexivity|]); by repeat split.
Qed.

Lemma set_limit_stores_witness :
  Session.write_ok (Spec.fair_env 8) = true /\
  exists a',
    Menu.set_upper_limit (Spec.fair_env 8) "70%" (Spec.cycling_app 7)
      = Session.Returned a' /\
    Session.config a' !! "upper_limit" = Some (JInt 70) /\
    Session.config a' !! "lower_limit" = Some (JInt 20) /\
    Session.script_process a' = Some 7%nat /\
    Session.log a' = [Session.SaveConfig (Session.config a')].
Proof.
  split; [reflexivity|].
  destruct (proj1 (set_limit_stores (Spec.fair_env 8) 70 (Spec.cycling_app 7)
                     eq_refl))
    as (a' & Hrun & Hc & _ & Hp & _ & Hl).
  exists a'. split; [exact Hrun|].
  split; [by rewrite Hc|]. split; [by rewrite Hc|]. split; [exact Hp|].
  rewrite Hl, Hc. reflexivity.
Defined.

(** X2.  [set_cpu_stress] and [set_gpu_stress], for every item of
    [STRESS_LEVELS]: the stored level is one of off, low, medium, high;
    it is written to the file; the next start-up has nothing to migrate
    in it; and it names its item: no other item of the menu has the same
    lower-cased title, which is how [__init__] finds the item to check. *)
Theorem set_stress_stores (e : Session.env) (title : string) (a : Session.app) :
  title ∈ Menu.STRESS_LEVELS ->
  Session.write_ok e = true ->
  (exists a' level,
     Menu.set_cpu_stress e title a = Session.Returned a' /\
     Session.config a' = <["cpu_stress" := level]> (Session.config a) /\
     Props.stress_level level /\
     Session.config_on_disk a' = Some (Session.config a') /\
     Config.migrate_field "cpu_stress" (Session.config a') = Some (Session.config a') /\
     Session.script_process a' = Session.script_process a) /\
  (exists a' level,
     Menu.set_gpu_stress e title a = Session.Returned a' /\
     Session.config a' = <["gpu_stress" := level]> (Session.config a) /\
     Props.stress_level level /\
     Session.config_on_disk a' = Some (Session.config a') /\
     Config.migrate_field "gpu_stress" (Session.config a') = Some (Session.config a') /\
     Session.script_process a' = Session.script_process a) /\
  (forall t, t ∈ Menu.STRESS_LEVELS -> Py.lower t = Py.lower title -> t = title).
Proof.
  intros Ht Hw.
  assert (Hl : Props.stress_level (JStr (Py.lower title))).
  { unfold Menu.STRESS_LEVELS, Props.stress_level in *.
    repeat (apply elem_of_cons in Ht as [-> | Ht]; [by auto|]).
    by apply elem_of_nil in Ht. }
  unfold Menu.set_cpu_stress, Menu.set_gpu_stress, Session.save_config.
  rewrite Hw. split; [|split].
  - eexists _, _. split; [reflexivity|]. cbn.
    repeat split; [exact Hl|].
    unfold Config.migrate_field. by rewrite lookup_insert_eq.
  - eexists _, _. split; [reflexivity|]. cbn.
    repeat split; [exact Hl|].
    unfold Config.migrate_field. by rewrite lookup_insert_eq.
  - intros t Hin. unfold Menu.STRESS_LEVELS in *.
    repeat (apply elem_of_cons in Ht as [-> | Ht]);
      try (by apply elem_of_nil in Ht);
      repeat (apply elem_of_cons in Hin as [-> | Hin]);
      try (by apply elem_of_nil in Hin); by vm_compute.
Qed.

Lemma set_stress_stores_witness :
  "Medium" ∈ Menu.STRESS_LEVELS /\
  exists a',
    Menu.set_gpu_stress (Spec.fair_env 8) "Medium" Spec.fresh_app
      = Session.Returned a' /\
    Session.config a' !! "gpu_stress" = Some (JStr "medium").
Proof.
  assert (Hin : "Medium" ∈ Menu.STRESS_LEVELS)
    by (unfold Menu.STRESS_LEVELS; rewrite !elem_of_cons; tauto).
  split; [exact Hin|].
  destruct (set_stress_stores (Spec.fair_env 8) "Medium" Spec.fresh_app
              Hin eq_refl)
    as (_ & (a' & level & Hrun & Hc & _) & _).
  exists a'. split; [exact Hrun|].
  injection Hrun as <-. reflexivity.
Defined.

(** X3.  The check marks after a selection in a percentage submenu: for
    any menu of distinct values, selecting the item of one of them checks
    that item and no other. *)
Theorem percent_menu_one_checked (vals : list Z) (val : Z) :
  NoDup vals -> val ∈ vals ->
  filter (fun it => it.2 = 1)
    (Menu.mark_items (Session.menu_title val) (Session.menu_title <$> vals))
  = [(Session.menu_title val, 1)].
Proof.
  apply mark_items_one. intros x y H.
  pose proof (title_parses x) as Hx. rewrite H, title_parses in Hx. congruence.
Qed.

Lemma percent_menu_one_checked_witness :
  filter (fun it => it.2 = 1)
    (Menu.mark_items "50%" (Session.menu_title <$> Session.menu_percents))
  = [("50%", 1)].
Proof.
  apply (percent_menu_one_checked Session.menu_percents 50).
  - unfold Session.menu_percents.
    repeat (apply NoDup_cons; split;
            [rewrite ?elem_of_cons, elem_of_nil; lia|]).
    apply NoDup_nil_2.
  - unfold Session.menu_percents. rewrite !elem_of_cons. tauto.
Defined.

(* ===================================================================== *)
(** * Start-up                                                             *)
(* ===================================================================== *)

Section StartupFacts.

Implicit Types (m c : gmap string json) (k : string).

(** The merge loop never turns a value that is not a record into one. *)
Lemma merge_defaults_not_obj (items : list (string * json)) (j j' : json) :
  (forall m, j <> JObj m) ->
  Config.merge_defaults items j = Some j' -> j' = j.
Proof.
  intros Hj. induction items as [|[k d] items IH]; simpl; [congruence|].
  destruct (Config.key_in k j) as [[]|]; [exact IH | | done].
  destruct j; simpl; try done. by destruct (Hj m).
Qed.

(** Whatever the file, a loaded record holds every documented key and is
    unchanged by the defaults. *)
Lemma load_config_record (f : Config.config_file) m :
  Config.load_config f = JObj m -> m ∪ Config.DEFAULT_CONFIG = m.
Proof.
  assert (Hd : Config.DEFAULT_CONFIG ∪ Config.DEFAULT_CONFIG
               = Config.DEFAULT_CONFIG) by apply (map_union_idemp _).
  destruct f as [| |j]; unfold Config.load_config;
    try (intros [= <-]; exact Hd).
  destruct (Config.merge_defaults Config.DEFAULT_ITEMS j) as [j'|] eqn:Hm;
    [|intros [= <-]; exact Hd].
  intros ->. destruct j as [| | | | | |m0];
    try (apply merge_defaults_not_obj in Hm; done).
  assert (m = m0 ∪ Config.DEFAULT_CONFIG) as ->
    by (rewrite merge_defaults_obj in Hm; unfold Config.DEFAULT_CONFIG;
        congruence).
  by rewrite <- (assoc_L (∪)), Hd.
Qed.

Lemma migrate_field_union k m m' :
  Config.migrate_field k m = Some m' ->
  m ∪ Config.DEFAULT_CONFIG = m -> m' ∪ Config.DEFAULT_CONFIG = m'.
Proof.
  intros H Hu. unfold Config.migrate_field in H.
  destruct (m !! k) as [[]|]; simplify_eq; try done.
  by rewrite <- insert_union_l, Hu.
Qed.

Lemma migrate_field_None k m :
  Config.migrate_field k m = None <->
  exists v, m !! k = Some v /\ (forall b, v <> JBool b) /\ (forall s, v <> JStr s).
Proof.
  unfold Config.migrate_field. split.
  - destruct (m !! k) as [v|]; [|done].
    destruct v; try done; intros _; eexists; by repeat split.
  - intros (v & -> & Hb & Hs). destruct v; try done;
      [by destruct (Hb b) | by destruct (Hs s)].
Qed.

End StartupFacts.

(** What start-up leaves: a record closed under the defaults whose
    stress fields hold strings. *)
Lemma startup_config_Some (f : Config.config_file) (c : gmap string json) :
  Startup.startup_config f = Some c ->
  c ∪ Config.DEFAULT_CONFIG = c /\
  (exists s, c !! "cpu_stress" = Some (JStr s)) /\
  (exists s, c !! "gpu_stress" = Some (JStr s)).
Proof.
  intros H2. unfold Startup.startup_config in H2.
  destruct (Config.load_config f) as [| | | | | |m] eqn:Hload; try done.
  apply load_config_record in Hload. unfold Config.migrate in H2.
  destruct (Config.migrate_field "cpu_stress" m) as [c1|] eqn:H1; [|done].
  cbn in H2.
  pose proof (migrate_field_union _ _ _ H2 (migrate_field_union _ _ _ H1 Hload))
    as Hu.
  assert (Hkeys : forall k d, Config.DEFAULT_CONFIG !! k = Some d ->
                    is_Some (c !! k)).
  { intros k d Hd. rewrite <- Hu, lookup_union, Hd. by destruct (c !! k). }
  destruct (migrate_field_Some _ _ _ H1) as [Hs1 _].
  destruct (migrate_field_Some _ _ _ H2) as [Hs2 Ho2].
  split; [exact Hu|]. split.
  - destruct (Hkeys "cpu_stress" (JStr "high") eq_refl) as [v Hv].
    rewrite Ho2 in Hv |- * by done.
    destruct Hs1 as [Hn | Hstr]; [congruence | done].
  - destruct (Hkeys "gpu_stress" (JStr "off") eq_refl) as [v Hv].
    destruct Hs2 as [Hn | Hstr]; [congruence | done].
Qed.

Lemma startup_config_fixed (c : gmap string json) :
  c ∪ Config.DEFAULT_CONFIG = c ->
  (exists s, c !! "cpu_stress" = Some (JStr s)) ->
  (exists s, c !! "gpu_stress" = Some (JStr s)) ->
  Startup.startup_config (Config.Parsed (JObj c)) = Some c.
Proof.
  intros Hu Hcpu Hgpu.
  unfold Startup.startup_config. rewrite load_config_obj, Hu.
  unfold Config.migrate.
  rewrite (migrate_field_settled "cpu_stress" c) by (right; exact Hcpu).
  cbn. apply migrate_field_settled. right; exact Hgpu.
Qed.

Lemma startup_config_None (m : gmap string json) :
  Startup.startup_config (Config.Parsed (JObj m)) = None <->
  Props.unusable "cpu_stress" m \/ Props.unusable "gpu_stress" m.
Proof.
  unfold Startup.startup_config. rewrite load_config_obj. unfold Config.migrate.
  assert (Hlook : forall k d, Config.DEFAULT_CONFIG !! k = Some (JStr d) ->
            forall v, (m ∪ Config.DEFAULT_CONFIG) !! k = Some v ->
                      (forall b, v <> JBool b) -> (forall s, v <> JStr s) ->
                      m !! k = Some v).
  { intros k d Hd v Hv Hb Hs.
    apply lookup_union_Some_raw in Hv as [Hv | [_ Hv]]; [done|].
    rewrite Hd in Hv. injection Hv as <-. by destruct (Hs d). }
  unfold Props.unusable. split.
  - destruct (Config.migrate_field "cpu_stress" _) as [c1|] eqn:H1.
    + cbn. intros (v & Hv & Hb & Hs)%migrate_field_None.
      destruct (migrate_field_Some _ _ _ H1) as [_ Ho].
      rewrite Ho in Hv by done.
      right. exists v. split; [|done].
      by apply (Hlook "gpu_stress" "off").
    + intros _. apply migrate_field_None in H1 as (v & Hv & Hb & Hs).
      left. exists v. split; [|done].
      by apply (Hlook "cpu_stress" "high").
  - intros [(v & Hv & Hb & Hs) | (v & Hv & Hb & Hs)].
    + assert (H1 : Config.migrate_field "cpu_stress" (m ∪ Config.DEFAULT_CONFIG)
                   = None).
      { apply migrate_field_None. exists v. split; [|done].
        by apply lookup_union_Some_l. }
      by rewrite H1.
    + destruct (Config.migrate_field "cpu_stress" _) as [c1|] eqn:H1; [|done].
      cbn. apply migrate_field_None. exists v. split; [|done].
      destruct (migrate_field_Some _ _ _ H1) as [_ Ho].
      rewrite Ho by done. by apply lookup_union_Some_l.
Qed.

(** Storing a string under any key, or an integer under a key that is
    not a stress field, keeps a record one the application starts from. *)
Lemma starts_insert (c : gmap string json) (k : string) (v : json) :
  (exists s, v = JStr s) \/ (k <> "cpu_stress" /\ k <> "gpu_stress") ->
  Props.starts c -> Props.starts (<[k := v]> c).
Proof.
  unfold Props.starts. intros Hv Hc.
  assert (Hkeep : forall k', (k' = "cpu_stress" \/ k' = "gpu_stress") ->
            Props.unusable k' (<[k := v]> c) -> Props.unusable k' c).
  { intros k' Hk' (w & Hw & Hb & Hs).
    destruct (decide (k = k')) as [->|Hne].
    - rewrite lookup_insert_eq in Hw. injection Hw as <-.
      destruct Hv as [[s ->] | [? ?]]; [by destruct (Hs s)|].
      destruct Hk'; congruence.
    - rewrite lookup_insert_ne in Hw by done. by exists w. }
  destruct (Startup.startup_config (Config.Parsed (JObj (<[k := v]> c))))
    eqn:E; [by eexists|].
  apply startup_config_None in E.
  assert (Hn : Startup.startup_config (Config.Parsed (JObj c)) = None).
  { apply startup_config_None.
    destruct E as [E | E]; [left | right]; apply Hkeep; auto. }
  rewrite Hn in Hc. by destruct Hc.
Qed.

(** X9.  What [__init__] goes on with, when it does not raise: every
    documented key is present, the two stress fields hold strings, and
    the configuration is a fixed point of start-up: written to the file
    and loaded again by a later start, it comes back unchanged. *)
Theorem startup_config_complete
    (f : Config.config_file) (c : gmap string json) :
  Startup.startup_config f = Some c ->
  (forall k d, Config.documented_default k = Some d -> is_Some (c !! k)) /\
  (exists s, c !! "cpu_stress" = Some (JStr s)) /\
  (exists s, c !! "gpu_stress" = Some (JStr s)) /\
  Startup.startup_config (Config.Parsed (JObj c)) = Some c.
Proof.
  intros (Hu & Hcpu & Hgpu)%startup_config_Some.
  split; [|split; [exact Hcpu | split; [exact Hgpu|]]].
  - intros k d Hd. rewrite <- DEFAULT_CONFIG_documented in Hd.
    rewrite <- Hu, lookup_union, Hd. by destruct (c !! k).
  - by apply startup_config_fixed.
Qed.

Lemma startup_config_complete_witness :
  Startup.startup_config
    (Config.Parsed (JObj {[ "cpu_stress" := JBool false;
                            "upper_limit" := JInt 999 ]}))
  = Some (<["cpu_stress" := JStr "off"]>
            (<["upper_limit" := JInt 999]> Config.DEFAULT_CONFIG)) /\
  Startup.startup_config
    (Config.Parsed (JObj (<["cpu_stress" := JStr "off"]>
                            (<["upper_limit" := JInt 999]> Config.DEFAULT_CONFIG))))
  = Some (<["cpu_stress" := JStr "off"]>
            (<["upper_limit" := JInt 999]> Config.DEFAULT_CONFIG)).
Proof.
  assert (H : Startup.startup_config
                (Config.Parsed (JObj {[ "cpu_stress" := JBool false;
                                        "upper_limit" := JInt 999 ]}))
              = Some (<["cpu_stress" := JStr "off"]>
                        (<["upper_limit" := JInt 999]> Config.DEFAULT_CONFIG)))
    by (vm_compute; reflexivity).
  split; [exact H|].
  exact (proj2 (proj2 (proj2 (startup_config_complete _ _ H)))).
Defined.

(** X10.  Start-up on a record raises exactly when a stress field of the
    file holds something that is neither a boolean nor a string (a
    number, null, a list, a record); no value of a limit makes it
    raise. *)
Theorem startup_config_raises (m : gmap string json) :
  Startup.startup_config (Config.Parsed (JObj m)) = None <->
  exists k v, (k = "cpu_stress" \/ k = "gpu_stress") /\ m !! k = Some v /\
              (forall b, v <> JBool b) /\ (forall s, v <> JStr s).
Proof.
  rewrite startup_config_None. unfold Props.unusable. split.
  - intros [(v & H) | (v & H)]; eauto 6.
  - intros (k & v & [-> | ->] & H); eauto.
Qed.

Lemma startup_config_raises_witness :
  Startup.startup_config
    (Config.Parsed (JObj {[ "gpu_stress" := JInt 2 ]})) = None.
Proof.
  apply (proj2 (startup_config_raises {[ "gpu_stress" := JInt 2 ]})).
  exists "gpu_stress", (JInt 2).
  split; [by right|]. split; [reflexivity|]. split; discriminate.
Defined.

(** X16.  Loading is idempotent: for every file, loading a file that
    holds what [load_config] returned gives the same value again (the
    defaults are filled in once and for all, and a value that is no
    record comes back as it is). *)
Theorem load_config_idempotent (f : Config.config_file) :
  Config.load_config (Config.Parsed (Config.load_config f))
  = Config.load_config f.
Proof.
  assert (Hd : Config.load_config (Config.Parsed (JObj Config.DEFAULT_CONFIG))
               = JObj Config.DEFAULT_CONFIG).
  { rewrite load_config_obj. apply (f_equal JObj), (map_union_idemp _). }
  destruct f as [| |j]; [exact Hd | exact Hd |].
  assert (Hcases : (exists m, j = JObj m) \/
                   Config.load_config (Config.Parsed j) = j \/
                   Config.load_config (Config.Parsed j)
                   = JObj Config.DEFAULT_CONFIG).
  { destruct j as [| | | | | |m]; [..|by left; eexists]; right;
      unfold Config.load_config;
      match goal with
      | |- context [Config.merge_defaults ?items ?j] =>
          destruct (Config.merge_defaults items j) as [j'|] eqn:Hm;
          [left; by apply merge_defaults_not_obj in Hm | by right]
      end. }
  destruct Hcases as [[m ->] | [H | H]].
  - rewrite !load_config_obj. apply (f_equal JObj).
    by rewrite <- (assoc_L (∪)), (map_union_idemp Config.DEFAULT_CONFIG).
  - by rewrite !H.
  - by rewrite H.
Qed.

(* ===================================================================== *)
(** * The state file and the statistics report                             *)
(* ===================================================================== *)

Section ReportFacts.

(** A string that holds the separator has a second field. *)
Lemma split_fields_sep (sep : ascii) (pre post : string) :
  snd (Py.split_fields sep (pre +:+ String sep post)) <> [].
Proof.
  induction pre as [|c pre IH]; cbn [String.append Py.split_fields].
  - rewrite Ascii.eqb_refl. by destruct (Py.split_fields sep post).
  - destruct (Py.split_fields sep (pre +:+ String sep post)) as [f fs].
    by destruct (Ascii.eqb sep c).
Qed.

Lemma split_1_sep (sep : ascii) (pre post : string) :
  is_Some (Py.split_1 sep (pre +:+ String sep post)).
Proof.
  unfold Py.split_1. pose proof (split_fields_sep sep pre post) as H.
  by destruct (snd (Py.split_fields sep (pre +:+ String sep post))).
Qed.

(** [line.split("=")[1]] cannot raise on a line that starts with one of
    the keys: the key ends with the separator. *)
Lemma str_field_key (key line : string) :
  Py.startswith (key +:+ "=") line = true -> is_Some (Stats.str_field line).
Proof.
  intros [post ->]%startswith_spec. unfold Stats.str_field.
  rewrite app_assoc_str. cbn [String.append].
  by destruct (split_1_sep "=" key post) as [f ->].
Qed.

Lemma scan_state_cycles (lines : list string) (c : Stats.counters) :
  Stats.script_cycles (Stats.scan_state lines c)
  = fst (Status.scan_cycles lines (Stats.script_cycles c)).
Proof.
  revert c. induction lines as [|line rest IH]; intros c; [done|].
  cbn [Stats.scan_state Status.scan_cycles].
  change (Py.split_1 "=" line ≫= (λ f, Py.int (Py.strip f)))
    with (Stats.int_field line).
  destruct (Py.startswith "TOTAL_DISCHARGE_CYCLES=" line).
  { destruct (Stats.int_field line); [by rewrite IH | done]. }
  destruct (Py.startswith "INITIAL_HEALTH=" line) eqn:H1.
  { destruct (str_field_key "INITIAL_HEALTH" line H1) as [val ->].
    rewrite IH. by destruct (Stats.nonempty val). }
  destruct (Py.startswith "INITIAL_APPLE_CYCLES=" line) eqn:H2.
  { destruct (str_field_key "INITIAL_APPLE_CYCLES" line H2) as [val ->].
    rewrite IH. by destruct (Stats.nonempty val). }
  repeat match goal with
  | |- context [if ?b then _ else _] => destruct b
  end; rewrite IH; by destruct (Stats.int_field line).
Qed.

(** The loop goes on after a line that is inert. *)
Lemma scan_state_inert (line : string) (rest : list string)
    (c : Stats.counters) :
  Props.inert line = true ->
  Stats.scan_state (line :: rest) c = Stats.scan_state rest c.
Proof.
  unfold Props.inert, Props.starts_with_any, Props.cycles_key,
    Props.string_keys, Props.duration_keys.
  cbn [existsb Stats.scan_state].
  destruct (Py.startswith "TOTAL_DISCHARGE_CYCLES=" line); [done|].
  destruct (Py.startswith "INITIAL_HEALTH=" line); [done|].
  destruct (Py.startswith "INITIAL_APPLE_CYCLES=" line); [done|].
  destruct (Stats.int_field line);
    destruct (Py.startswith "TOTAL_ACTIVE_SECS=" line);
    destruct (Py.startswith "TOTAL_DISCHARGE_SECS=" line);
    destruct (Py.startswith "TOTAL_CHARGE_SECS=" line); done.
Qed.

(** What the loop does after some lines only depends on what it would do
    from every state. *)
Lemma scan_state_app (before l l' : list string) (c : Stats.counters) :
  (forall c', Stats.scan_state l c' = Stats.scan_state l' c') ->
  Stats.scan_state (before ++ l) c = Stats.scan_state (before ++ l') c.
Proof.
  intros H. revert c.
  induction before as [|line before IH]; intros c; [apply H|].
  cbn [app Stats.scan_state].
  repeat match goal with
  | |- context [if ?b then _ else _] => destruct b
  | |- context [match ?o with Some _ => _ | None => _ end] => destruct o
  end; try done; apply IH.
Qed.

(** A register that no line names stays unset. *)
Lemma scan_register_absent (name line : string) :
  Py.contains (Stats.quoted name) line = false ->
  Stats.scan_register name line None = None.
Proof. unfold Stats.scan_register. by intros ->. Qed.

End ReportFacts.

(** X12.  The two readers of the state file show the same cycle count:
    for every file, absent, unreadable, well formed or not, the script
    cycles of [show_stats] are the cycles of [get_cycle_info] (both stop
    at the first cycle line that is not a number, and no other line of
    the file can end the loop of [show_stats] before). *)
Theorem cycle_counts_agree (f : state_file) (sp : run_result) :
  Stats.script_cycles (Stats.read_state f) = fst (Status.get_cycle_info f sp).
Proof.
  assert (H : Stats.script_cycles (Stats.read_state f)
              = fst (Status.read_cycles f)).
  { destruct f as [| |content]; [done | done |]. apply scan_state_cycles. }
  rewrite H. unfold Status.get_cycle_info.
  destruct (Status.read_cycles f) as [cycles []]; [|done]. by destruct sp.
Qed.

(** X13.  Lines that [show_stats] has no use for change nothing,
    wherever they stand in the state file: lines that start with none of
    the six keys (comments, blank lines, other settings) and duration
    lines whose value is not an integer can be removed without changing
    any of the six values read. *)
Theorem inert_lines_ignored (before junk after : list string)
    (c : Stats.counters) :
  forallb Props.inert junk = true ->
  Stats.scan_state (before ++ junk ++ after) c
  = Stats.scan_state (before ++ after) c.
Proof.
  intros Hj. apply scan_state_app. clear c.
  induction junk as [|line junk IH]; intros c; [done|].
  cbn [forallb] in Hj. apply andb_true_iff in Hj as [Hl Hj].
  cbn [app]. rewrite scan_state_inert by done. by apply IH.
Qed.

Lemma inert_lines_ignored_witness :
  Stats.scan_state
    (["TOTAL_DISCHARGE_CYCLES=3"]
       ++ ["# written by battery_cycle.sh"; ""; "TOTAL_CHARGE_SECS=soon";
           "CYCLE_START=17"]
       ++ ["TOTAL_ACTIVE_SECS=120"]) Stats.initial_counters
  = Stats.set_total_active_secs 120
      (Stats.set_script_cycles 3 Stats.initial_counters).
Proof.
  rewrite (inert_lines_ignored ["TOTAL_DISCHARGE_CYCLES=3"]
             ["# written by battery_cycle.sh"; ""; "TOTAL_CHARGE_SECS=soon";
              "CYCLE_START=17"]
             ["TOTAL_ACTIVE_SECS=120"] Stats.initial_counters);
    reflexivity.
Defined.



(** X15.  When the register dump names no design capacity, or no
    nominal capacity, the calculated health and the capacity are both
    N/A. *)
Theorem ioreg_health_no_register (output2 : string) :
  (forall line, line ∈ Py.split Py.LF output2 ->
     Py.contains (Stats.quoted "DesignCapacity") line = false) \/
  (forall line, line ∈ Py.split Py.LF output2 ->
     Py.contains (Stats.quoted "NominalChargeCapacity") line = false) ->
  Report.ioreg_health output2 = ("N/A", "N/A").
Proof.
  unfold Report.ioreg_health.
  generalize (Py.split Py.LF output2) as lines. intros lines H.
  assert (Hn : forall v,
            (forall line, line ∈ lines ->
               Py.contains (Stats.quoted "NominalChargeCapacity") line = false) ->
            fst (Stats.scan_registers lines (None, v)) = None).
  { clear H. induction lines as [|l lines IH]; intros v H; [done|].
    cbn [Stats.scan_registers fst snd].
    rewrite scan_register_absent by (apply H; left). apply IH.
    intros line Hl. apply H. by right. }
  assert (Hd : forall v,
            (forall line, line ∈ lines ->
               Py.contains (Stats.quoted "DesignCapacity") line = false) ->
            snd (Stats.scan_registers lines (v, None)) = None).
  { clear H Hn. induction lines as [|l lines IH]; intros v H; [done|].
    cbn [Stats.scan_registers fst snd].
    rewrite scan_register_absent by (apply H; left). apply IH.
    intros line Hl. apply H. by right. }
  destruct H as [H | H].
  - rewrite (Hd None H). by destruct (fst _).
  - by rewrite (Hn None H).
Qed.

Lemma ioreg_health_no_register_witness :
  Report.ioreg_health "+-o AppleSmartBattery" = ("N/A", "N/A").
Proof.
  apply ioreg_health_no_register. left. intros line Hl.
  change (Py.split Py.LF "+-o AppleSmartBattery")
    with ["+-o AppleSmartBattery"] in Hl.
  apply list_elem_of_singleton in Hl as ->. reflexivity.
Defined.

(* ===================================================================== *)
(** * The two readers of the power report                                  *)
(* ===================================================================== *)

Section StripFacts.

Variable p : ascii -> bool.

Lemma startswith_rstrip (sub0 : string) (z : ascii) (s : string) :
  p z = false ->
  Py.startswith (sub0 +:+ String z "") (Py.rstrip_by p s)
  = Py.startswith (sub0 +:+ String z "") s.
Proof.
  intros Hz. revert sub0. induction s as [|c s IH]; intros sub0; [done|].
  cbn [Py.rstrip_by].
  destruct sub0 as [|a sub0]; cbn [String.append].
  - destruct (Py.rstrip_by p s) as [|d r] eqn:E.
    + destruct (p c) eqn:Hc; cbn [Py.startswith].
      * destruct (Ascii.eqb_spec z c) as [->|]; [congruence | done].
      * by destruct (Ascii.eqb z c).
    + cbn [Py.startswith]. by destruct (Ascii.eqb z c).
  - specialize (IH sub0).
    destruct (Py.rstrip_by p s) as [|d r] eqn:E.
    + assert (Hs : Py.startswith (sub0 +:+ String z "") s = false).
      { rewrite <- IH. by destruct sub0. }
      cbn [Py.startswith]. rewrite Hs.
      destruct (p c); cbn [Py.startswith]; [by destruct (Ascii.eqb a c)|].
      destruct (Ascii.eqb a c); [|done]. by destruct sub0.
    + cbn [Py.startswith]. by rewrite IH.
Qed.

Lemma contains_lstrip (a : ascii) (sub' s : string) :
  p a = false ->
  Py.contains (String a sub') (Py.lstrip_by p s) = Py.contains (String a sub') s.
Proof.
  intros Ha. induction s as [|c s IH]; [done|].
  cbn [Py.lstrip_by]. destruct (p c) eqn:Hc; [|done].
  rewrite IH. cbn [Py.contains Py.startswith].
  destruct (Ascii.eqb_spec a c) as [->|]; [congruence | done].
Qed.

Lemma contains_rstrip (sub0 : string) (z : ascii) (s : string) :
  p z = false ->
  Py.contains (sub0 +:+ String z "") (Py.rstrip_by p s)
  = Py.contains (sub0 +:+ String z "") s.
Proof.
  intros Hz.
  assert (Hnil : Py.startswith (sub0 +:+ String z "") "" = false)
    by (by destruct sub0).
  induction s as [|c s IH]; [done|].
  pose proof (startswith_rstrip sub0 z (String c s) Hz) as Hsw.
  cbn [Py.rstrip_by] in Hsw |- *.
  destruct (Py.rstrip_by p s) as [|d r] eqn:E.
  - cbn [Py.contains] in IH. rewrite Hnil in IH. cbn [orb] in IH.
    change (Py.contains (sub0 +:+ String z "") (String c s))
      with (Py.startswith (sub0 +:+ String z "") (String c s)
            || Py.contains (sub0 +:+ String z "") s).
    rewrite <- IH, <- Hsw.
    destruct (p c); cbn [Py.contains]; by rewrite ?Hnil, ?orb_false_r.
  - change (Py.contains (sub0 +:+ String z "") (String c s))
      with (Py.startswith (sub0 +:+ String z "") (String c s)
            || Py.contains (sub0 +:+ String z "") s).
    rewrite <- IH, <- Hsw. done.
Qed.

Lemma rstrip_idemp (s : string) :
  Py.rstrip_by p (Py.rstrip_by p s) = Py.rstrip_by p s.
Proof.
  induction s as [|c s IH]; [done|]. cbn [Py.rstrip_by].
  destruct (Py.rstrip_by p s) as [|d r] eqn:E.
  - destruct (p c) eqn:Hc; [done|]. cbn [Py.rstrip_by]. by rewrite Hc.
  - cbn [Py.rstrip_by] in IH |- *. by rewrite IH.
Qed.

Lemma lstrip_rstrip (s : string) :
  Py.lstrip_by p (Py.rstrip_by p s) = Py.rstrip_by p (Py.lstrip_by p s).
Proof.
  induction s as [|c s IH]; [done|]. cbn [Py.rstrip_by Py.lstrip_by].
  destruct (p c) eqn:Hc.
  - rewrite <- IH. destruct (Py.rstrip_by p s) as [|d r]; [done|].
    cbn [Py.lstrip_by]. by rewrite Hc.
  - cbn [Py.rstrip_by].
    destruct (Py.rstrip_by p s) as [|d r]; rewrite ?Hc;
      cbn [Py.lstrip_by]; by rewrite Hc.
Qed.

Lemma strip_rstrip (s : string) :
  Py.strip_by p (Py.rstrip_by p s) = Py.strip_by p s.
Proof. unfold Py.strip_by. by rewrite lstrip_rstrip, rstrip_idemp. Qed.

Variable sep : ascii.
Hypothesis p_sep : p sep = false.

Lemma split_fields_nosep (s : string) :
  Py.contains (String sep "") s = false -> Py.split_fields sep s = (s, []).
Proof.
  induction s as [|c s IH]; [done|]. cbn [Py.contains Py.startswith].
  destruct (Ascii.eqb sep c) eqn:Hc; [done|]. cbn [orb]. intros H.
  cbn [Py.split_fields]. by rewrite (IH H), Hc.
Qed.

Lemma split_fields_hassep (s : string) :
  Py.contains (String sep "") s = true -> snd (Py.split_fields sep s) <> [].
Proof.
  intros (pre & post & ->)%contains_spec. cbn [String.append].
  apply split_fields_sep.
Qed.

Lemma last_nonempty {A} (x : A) (l : list A) (d d' : A) :
  List.last (x :: l) d = List.last (x :: l) d'.
Proof. revert x. induction l as [|y l IH]; intros x; [done|]. apply (IH y). Qed.

Lemma split_last_cons (c : ascii) (s : string) :
  Py.split_last sep (String c s)
  = if Ascii.eqb sep c || Py.contains (String sep "") s
    then Py.split_last sep s else String c s.
Proof.
  unfold Py.split_last. cbn [Py.split_fields].
  destruct (Py.contains (String sep "") s) eqn:Hc.
  - apply split_fields_hassep in Hc. rewrite orb_true_r.
    destruct (Py.split_fields sep s) as [f [|g gs]]; [done|].
    destruct (Ascii.eqb sep c); cbn [orb snd fst];
      [exact (last_nonempty g gs "" f) | exact (last_nonempty g gs _ _)].
  - rewrite (split_fields_nosep s Hc), orb_false_r.
    by destruct (Ascii.eqb sep c).
Qed.

Lemma rstrip_empty_nosep (s : string) :
  Py.rstrip_by p s = "" -> Py.contains (String sep "") s = false.
Proof.
  induction s as [|c s IH]; [done|]. cbn [Py.rstrip_by].
  destruct (Py.rstrip_by p s) as [|d r]; [|done].
  destruct (p c) eqn:Hc; [|done]. intros _.
  cbn [Py.contains Py.startswith]. rewrite (IH eq_refl).
  destruct (Ascii.eqb_spec sep c) as [->|]; [congruence | done].
Qed.

Lemma split_last_rstrip (s : string) :
  Py.split_last sep (Py.rstrip_by p s) = Py.rstrip_by p (Py.split_last sep s).
Proof.
  induction s as [|c s IH]; [done|].
  pose proof (contains_rstrip "" sep s p_sep) as Hc.
  cbn [String.append] in Hc.
  rewrite (split_last_cons c s). cbn [Py.rstrip_by].
  destruct (Py.rstrip_by p s) as [|d r] eqn:E.
  - rewrite (rstrip_empty_nosep s E), orb_false_r.
    destruct (Ascii.eqb_spec sep c) as [<-|Hne].
    + rewrite p_sep, split_last_cons, Ascii.eqb_refl. cbn [orb].
      by rewrite <- IH.
    + cbn [Py.rstrip_by]. rewrite E.
      destruct (p c); [done|]. rewrite split_last_cons.
      by destruct (Ascii.eqb_spec sep c).
  - rewrite split_last_cons, Hc.
    destruct (Ascii.eqb sep c || Py.contains (String sep "") s); [exact IH|].
    cbn [Py.rstrip_by]. by rewrite E.
Qed.

Lemma split_last_lstrip (s : string) :
  Py.contains (String sep "") s = true ->
  Py.split_last sep (Py.lstrip_by p s) = Py.split_last sep s.
Proof.
  induction s as [|c s IH]; [done|]. cbn [Py.lstrip_by].
  destruct (p c) eqn:Hc; [|done].
  assert (Hne : Ascii.eqb sep c = false)
    by (destruct (Ascii.eqb_spec sep c) as [->|]; [congruence | done]).
  cbn [Py.contains Py.startswith]. rewrite Hne. cbn [orb]. intros H.
  by rewrite split_last_cons, Hne, H, IH.
Qed.

(** Stripping the line first does not change the stripped last field. *)
Lemma strip_split_last_strip (s : string) :
  Py.contains (String sep "") s = true ->
  Py.strip_by p (Py.split_last sep (Py.strip_by p s))
  = Py.strip_by p (Py.split_last sep s).
Proof.
  intros H. unfold Py.strip_by at 2.
  by rewrite split_last_rstrip, split_last_lstrip, strip_rstrip.
Qed.

End StripFacts.

Section ProfilerFacts.

(** The test of both readers gives the same answer on the stripped
    line. *)
Lemma health_line_strip (line : string) :
  Py.contains "Maximum Capacity" (Py.strip line)
  && Py.contains ":" (Py.strip line)
  = Props.health_line line.
Proof.
  assert (H1 : forall s, Py.contains "Maximum Capacity" (Py.rstrip_by Py.is_space s)
                         = Py.contains "Maximum Capacity" s)
    by (intros s; exact (contains_rstrip Py.is_space "Maximum Capacit" "y" s eq_refl)).
  assert (H2 : forall s, Py.contains ":" (Py.rstrip_by Py.is_space s)
                         = Py.contains ":" s)
    by (intros s; exact (contains_rstrip Py.is_space "" ":" s eq_refl)).
  unfold Props.health_line, Py.strip, Py.strip_by.
  by rewrite H1, H2, !contains_lstrip.
Qed.

Lemma scan_profiler_health (before : list string) (l : string)
    (after : list string) (p : Report.profile) :
  forallb (fun x => negb (Props.health_line x)) after = true ->
  Props.health_line l = true ->
  Report.apple_health (Report.scan_profiler (before ++ l :: after) p)
  = Py.strip (Py.split_last ":" l).
Proof.
  intros Ha Hl.
  assert (Hafter : forall q,
            Report.apple_health (Report.scan_profiler after q)
            = Report.apple_health q).
  { induction after as [|x after IH]; intros q; [done|].
    cbn [forallb] in Ha. apply andb_true_iff in Ha as [Hx Ha].
    cbn [Report.scan_profiler]. rewrite health_line_strip.
    apply negb_true_iff in Hx. rewrite Hx, (IH Ha).
    by repeat match goal with
       | |- context [if ?b then _ else _] => destruct b
       end. }
  revert p. induction before as [|x before IH]; intros p.
  - cbn [app Report.scan_profiler]. rewrite health_line_strip, Hl, Hafter.
    cbn [Report.apple_health].
    apply (strip_split_last_strip Py.is_space ":" eq_refl).
    unfold Props.health_line in Hl. by apply andb_true_iff in Hl as [_ Hl].
  - cbn [app Report.scan_profiler]. apply IH.
Qed.

Lemma scan_health_first (before : list string) (l : string)
    (after : list string) :
  forallb (fun x => negb (Props.health_line x)) before = true ->
  Props.health_line l = true ->
  Status.scan_health (before ++ l :: after)
  = Some (Py.strip (Py.split_last ":" l)).
Proof.
  intros Hb Hl. induction before as [|x before IH].
  - cbn [app Status.scan_health]. unfold Props.health_line in Hl. by rewrite Hl.
  - cbn [forallb] in Hb. apply andb_true_iff in Hb as [Hx Hb].
    apply negb_true_iff in Hx. unfold Props.health_line in Hx.
    cbn [app Status.scan_health]. rewrite Hx. by apply IH.
Qed.

End ProfilerFacts.

(** X18.  The health in the menu and the Apple-reported health of the
    statistics are read from the same report by two loops, one that
    stops at the first matching line and tests the raw line, one that
    keeps the last match and strips the line first.  When the report has
    one line giving the maximum capacity, both show the same value, the
    stripped text after the last colon of that line. *)
Theorem health_readers_agree (f : state_file) (rc : Z) (output : string)
    (before after : list string) (l : string) :
  Py.split Py.LF output = before ++ l :: after ->
  forallb (fun x => negb (Props.health_line x)) before = true ->
  Props.health_line l = true ->
  forallb (fun x => negb (Props.health_line x)) after = true ->
  snd (Status.read_cycles f) = true ->
  snd (Status.get_cycle_info f (RunCompleted rc output))
  = Py.strip (Py.split_last ":" l) /\
  Report.apple_health (Report.read_profiler output)
  = Py.strip (Py.split_last ":" l).
Proof.
  intros Hlines Hb Hl Ha Hf. split.
  - unfold Status.get_cycle_info.
    destruct (Status.read_cycles f) as [cycles finished].
    cbn [snd] in Hf. subst finished. cbn [snd].
    by rewrite Hlines, scan_health_first.
  - unfold Report.read_profiler. rewrite Hlines. by apply scan_profiler_health.
Qed.

Lemma health_readers_agree_witness :
  snd (Status.get_cycle_info StateAbsent
         (RunCompleted 0 (Stats.unlines
            ["  Health Information:"; "      Cycle Count: 112";
             "      Maximum Capacity: 91% "])))
  = "91%" /\
  Report.apple_health
    (Report.read_profiler (Stats.unlines
       ["  Health Information:"; "      Cycle Count: 112";
        "      Maximum Capacity: 91% "]))
  = "91%".
Proof.
  apply (health_readers_agree StateAbsent 0 _
           ["  Health Information:"; "      Cycle Count: 112"] []
           "      Maximum Capacity: 91% "); reflexivity.
Defined.

(* ===================================================================== *)
(** * Invariants of the life of the application                            *)
(* ===================================================================== *)

Section Invariants.

Local Set Warnings "-clear-no-such-hyp".

Import Session.

Ltac open_handlers :=
  unfold Menu.handle, toggle_cycling, pause_at_percent, stop_at_percent,
    Menu.set_upper_limit, Menu.set_lower_limit, Menu.set_cpu_stress,
    Menu.set_gpu_stress, Menu.quit_app, hold_at, kill_script, save_config,
    update_status, bind, started, emit, set_process, set_config, active_pid
    in *; cbn [config script_process config_on_disk running log] in *.

Ltac split_cases :=
  repeat (case_match; simplify_eq;
          cbn [config script_process config_on_disk running log] in *).

(** What one callback does to the session, whether it returns or raises:
    the log only grows; a process is signalled only if it was the tracked
    one and running; a process is launched only when none was tracked and
    running, and it is tracked afterwards unless it has exited already; no
    other handle appears, no other process starts running, and the tracked
    process is only dropped once exited or signalled. *)
Lemma handle_effect (e : env) (act : Menu.action) (a a' : app) :
  Menu.handle e act a = Returned a' \/ Menu.handle e act a = Raised a' ->
  exists evs,
    log a' = log a ++ evs /\
    (forall pid, Killpg pid ∈ evs \/ Terminate pid ∈ evs ->
       script_process a = Some pid /\ pid ∈ running a) /\
    (forall pid, Popen pid ∈ evs ->
       active_pid a = None /\
       (script_process a' = Some pid \/ pid ∉ running a')) /\
    (forall pid, script_process a' = Some pid ->
       script_process a = Some pid \/ Popen pid ∈ evs) /\
    (forall pid, pid ∈ running a' -> pid ∈ running a \/ Popen pid ∈ evs) /\
    (forall pid, script_process a = Some pid -> pid ∈ running a' ->
       script_process a' = Some pid \/ Killpg pid ∈ evs).
Proof.
  destruct a as [cfg sp disk run lg]. intros Hrun.
  destruct act; open_handlers; split_cases;
    destruct Hrun as [Hrun | Hrun]; simplify_eq;
    cbn [config script_process config_on_disk running log] in *;
    repeat case_bool_decide; simplify_eq;
    rewrite <- ?app_assoc;
    (eexists; split; [reflexivity || (by rewrite app_nil_r) |]);
    split_and!; intros pid'; set_solver.
Qed.

Lemma effect_inv (a a' : app) (evs : list event) :
  Props.session_inv a ->
  log a' = log a ++ evs ->
  (forall pid, Killpg pid ∈ evs \/ Terminate pid ∈ evs ->
     script_process a = Some pid /\ pid ∈ running a) ->
  (forall pid, Popen pid ∈ evs ->
     active_pid a = None /\
     (script_process a' = Some pid \/ pid ∉ running a')) ->
  (forall pid, script_process a' = Some pid ->
     script_process a = Some pid \/ Popen pid ∈ evs) ->
  (forall pid, pid ∈ running a' -> pid ∈ running a \/ Popen pid ∈ evs) ->
  (forall pid, script_process a = Some pid -> pid ∈ running a' ->
     script_process a' = Some pid \/ Killpg pid ∈ evs) ->
  Props.session_inv a'.
Proof.
  unfold Props.session_inv, Props.launched, Props.signalled.
  intros (H1 & H2 & H3) Hl HA HB HC HD HE. rewrite Hl.
  split; [|split]; intros pid.
  - intros Hp. apply elem_of_app.
    destruct (HC pid Hp) as [Hp' | Hp']; [left; by apply H1 | by right].
  - rewrite !elem_of_app. intros [[Hk | Hk] | [Hk | Hk]].
    + left. apply H2. by left.
    + left. apply H1. apply (HA pid). by left.
    + left. apply H2. by right.
    + left. apply H1. apply (HA pid). by right.
  - rewrite !elem_of_app. intros [Hp | Hp] Hr.
    + destruct (HD pid Hr) as [Hr' | Hnew].
      * destruct (H3 pid Hp Hr') as [Ht | Hs]; [|by right; left].
        destruct (HE pid Ht Hr) as [? | ?]; [by left | by right; right].
      * destruct (HB pid Hnew) as [_ [? | ?]]; [by left | done].
    + destruct (HB pid Hp) as [_ [? | ?]]; [by left | done].
Qed.

Lemma step_inv (a a' : app) :
  Props.session_inv a -> Menu.step a a' -> Props.session_inv a'.
Proof.
  intros Hinv Hstep. revert Hinv.
  destruct Hstep as [e act b b' Hrun | e act b b' Hrun | pid b]; intros Hinv.
  - destruct (handle_effect e act b b' (or_introl Hrun))
      as (evs & Hl & HA & HB & HC & HD & HE).
    by apply (effect_inv b b' evs).
  - destruct (handle_effect e act b b' (or_intror Hrun))
      as (evs & Hl & HA & HB & HC & HD & HE).
    by apply (effect_inv b b' evs).
  - destruct Hinv as (H1 & H2 & H3).
    split; [exact H1 | split; [exact H2|]].
    intros p Hp Hr. apply (H3 p Hp).
    cbn in Hr. by apply elem_of_difference in Hr as [Hr _].
Qed.

Lemma reachable_inv (a : app) : Menu.reachable a -> Props.session_inv a.
Proof.
  induction 1 as [a [Hp Hl] | a a' _ IH Hstep]; [|by eapply step_inv].
  unfold Props.session_inv, Props.launched.
  rewrite Hp, Hl. split; [|split]; intros pid.
  - done.
  - intros [Hk | Hk]; by apply elem_of_nil in Hk.
  - intros Hk. by apply elem_of_nil in Hk.
Qed.



(** X7.  The file follows the memory: when a callback returns, the
    configuration on disk is the one in memory, provided it was before
    the callback or the callback is one that writes it (every selection
    handler, and [toggle_cycling] when it starts a session). *)
Theorem returned_sync (e : env) (act : Menu.action) (a a' : app) :
  Menu.handle e act a = Returned a' ->
  Props.synced a \/ Props.saves act a -> Props.synced a'.
Proof.
  unfold Props.synced, Props.saves, idle.
  destruct a as [cfg sp disk run lg]. intros Hrun Hs.
  destruct act; open_handlers; split_cases;
    repeat case_bool_decide; simplify_eq;
    cbn [config script_process config_on_disk running log] in *;
    try done; destruct Hs as [Hs | Hs]; try done; simplify_eq; done.
Qed.

Lemma returned_sync_witness :
  Props.saves (Menu.SetCpu "Low") Spec.fresh_app /\
  exists a',
    Menu.handle (Spec.fair_env 7) (Menu.SetCpu "Low") Spec.fresh_app
      = Returned a' /\
    Props.synced a'.
Proof.
  split; [exact I|]. eexists. split; [reflexivity|].
  refine (returned_sync (Spec.fair_env 7) (Menu.SetCpu "Low") Spec.fresh_app
            _ eq_refl (or_intror I)).
Defined.

(** X8.  A callback changes no entry of the configuration but its own:
    whether it returns or raises, every key other than the one the
    callback is for holds what it held ([toggle_cycling], the timer and
    [quit_app] change none). *)
Theorem handle_frame (e : env) (act : Menu.action) (a : app) (k : string) :
  Props.own_key act <> Some k ->
  config (Props.final (Menu.handle e act a)) !! k = config a !! k.
Proof.
  destruct a as [cfg sp disk run lg]. intros Hk.
  destruct act; open_handlers; cbn [Props.own_key] in Hk; split_cases;
    cbn [Props.final config]; split_cases; cbn [Props.final config];
    try done; by rewrite lookup_insert_ne by congruence.
Qed.

Lemma handle_frame_witness :
  config (Props.final (Menu.handle (Spec.fair_env 7) (Menu.StopAt "60%")
                         (Spec.cycling_app 7))) !! "pause_limit"
  = Some (JInt 50).
Proof.
  rewrite (handle_frame (Spec.fair_env 7) (Menu.StopAt "60%")
             (Spec.cycling_app 7) "pause_limit");
    [reflexivity | discriminate].
Defined.

(** What a callback does to the configuration, whether it returns or
    raises: at most one entry is stored, an integer under a limit or a
    string; the file is left as it was or holds the configuration in
    memory. *)
Lemma handle_config (e : env) (act : Menu.action) (a : app) :
  (config (Props.final (Menu.handle e act a)) = config a \/
   exists k v,
     config (Props.final (Menu.handle e act a)) = <[k := v]> (config a) /\
     ((exists s, v = JStr s) \/ (k <> "cpu_stress" /\ k <> "gpu_stress"))) /\
  (config_on_disk (Props.final (Menu.handle e act a)) = config_on_disk a \/
   config_on_disk (Props.final (Menu.handle e act a))
   = Some (config (Props.final (Menu.handle e act a)))).
Proof.
  destruct a as [cfg sp disk run lg].
  destruct act; open_handlers; split_cases;
    cbn [Props.final config config_on_disk]; split_cases;
    cbn [Props.final config config_on_disk];
    (split; [first [ by left
                   | right; eexists _, _; split; [reflexivity|];
                     first [ by left; eexists | by right ] ]
            | first [ by left | by right ] ]).
Qed.

(** X11.  No callback can spoil the next start: if the application
    starts from the configuration in memory and from the one in the file,
    it still does after any step, whatever the title of the item selected
    and whether the callback returns or raises. *)
Theorem step_keeps_restartable (a a' : app) :
  Menu.step a a' -> Props.restartable a -> Props.restartable a'.
Proof.
  assert (Hh : forall e act b, Props.restartable b ->
                 Props.restartable (Props.final (Menu.handle e act b))).
  { intros e act b [Hm Hd].
    destruct (handle_config e act b) as [Hc Hdisk].
    assert (Hm' : Props.starts (config (Props.final (Menu.handle e act b)))).
    { destruct Hc as [-> | (k & v & -> & Hv)]; [done|]. by apply starts_insert. }
    split; [exact Hm'|]. intros c Hc'.
    destruct Hdisk as [Hdisk | Hdisk]; rewrite Hdisk in Hc'.
    - by apply Hd.
    - by injection Hc' as <-. }
  intros Hstep Hinv. revert Hinv.
  destruct Hstep as [e act b b' Hrun | e act b b' Hrun | pid b]; intros Hinv.
  - specialize (Hh e act b Hinv). by rewrite Hrun in Hh.
  - specialize (Hh e act b Hinv). by rewrite Hrun in Hh.
  - exact Hinv.
Qed.

(** X17.  No stale handle is left behind: when [toggle_cycling],
    [pause_at_percent], [stop_at_percent] or the timer returns, the
    tracked process, if there is one, is running; a handle whose process
    has exited was dropped. *)
Theorem refresh_drops_stale_handle (e : env) (act : Menu.action) (a a' : app)
    (pid : nat) :
  Props.refreshes act = true ->
  Menu.handle e act a = Returned a' ->
  script_process a' = Some pid -> pid ∈ running a'.
Proof.
  destruct a as [cfg sp disk run lg]. intros Hact Hrun.
  destruct act; try discriminate Hact; clear Hact;
    open_handlers; split_cases;
    repeat case_bool_decide; simplify_eq;
    cbn [config script_process config_on_disk running log] in *;
    intros Hp; simplify_eq; try done; set_solver.
Qed.

Lemma refresh_drops_stale_handle_witness :
  script_process
    (Props.final (Menu.handle (Spec.fair_env 8) Menu.Refresh
                    (Menu.set_running ∅ (Spec.cycling_app 7)))) = None /\
  (7%nat ∈ running (Props.after_start 7)).
Proof.
  split; [reflexivity|].
  apply (refresh_drops_stale_handle (Spec.fair_env 7) Menu.Toggle
           Spec.fresh_app (Props.after_start 7) 7);
    reflexivity.
Defined.

End Invariants.


(** X5.  The application never loses track of a live script: in every
    reachable state a launched script that is still running and was never
    signalled is the tracked one, so there are never two of them. *)
Theorem one_live_script (a : Session.app) (p q : nat) :
  Menu.reachable a ->
  Props.launched p a -> p ∈ Session.running a -> ~ Props.signalled p a ->
  Session.script_process a = Some p /\
  (Props.launched q a -> q ∈ Session.running a -> ~ Props.signalled q a ->
   q = p).
Proof.
  intros Hr Hl Hrun Hs. destruct (reachable_inv a Hr) as (_ & _ & H3).
  assert (Hp : Session.script_process a = Some p)
    by (destruct (H3 p Hl Hrun); done).
  split; [done|]. intros Hl' Hrun' Hs'.
  destruct (H3 q Hl' Hrun') as [Hq | ?]; [congruence | done].
Qed.



Lemma one_live_script_witness :
  Menu.reachable (Props.after_start 7) /\
  Props.launched 7 (Props.after_start 7) /\
  7%nat ∈ Session.running (Props.after_start 7) /\
  ~ Props.signalled 7 (Props.after_start 7) /\
  Session.script_process (Props.after_start 7) = Some 7%nat.
Proof.
  assert (Hr : Menu.reachable (Props.after_start 7)).
  { apply (Menu.reach_step Spec.fresh_app); [by apply Menu.reach_initial|].
    exact (Menu.step_returned (Spec.fair_env 7) Menu.Toggle Spec.fresh_app
             (Props.after_start 7) eq_refl). }
  assert (Hlog : Session.log (Props.after_start 7)
                 = [Session.SaveConfig Config.DEFAULT_CONFIG; Session.Popen 7;
                    Session.Notification "Cycling started"]) by reflexivity.
  assert (Hrunning : Session.running (Props.after_start 7) = {[ 7%nat ]} ∪ ∅)
    by reflexivity.
  assert (Hl : Props.launched 7 (Props.after_start 7))
    by (unfold Props.launched; rewrite Hlog, !elem_of_cons; tauto).
  assert (Hrun : 7%nat ∈ Session.running (Props.after_start 7))
    by (rewrite Hrunning; apply elem_of_union_l, elem_of_singleton; reflexivity).
  assert (Hs : ~ Props.signalled 7 (Props.after_start 7)).
  { unfold Props.signalled. rewrite Hlog, !elem_of_cons, elem_of_nil.
    intros [H | [H | [H | H]]]; try discriminate H; exact H. }
  repeat (split; [assumption|]).
  exact (proj1 (one_live_script _ 7 7 Hr Hl Hrun Hs)).
Defined.

Lemma step_keeps_restartable_witness :
  Props.restartable Spec.fresh_app /\
  Props.restartable
    (Props.final (Menu.handle (Spec.fair_env 7) (Menu.SetUpper "abc%")
                    Spec.fresh_app)).
Proof.
  assert (H : Props.restartable Spec.fresh_app).
  { split; [|intros c Hc; discriminate Hc].
    exists Config.DEFAULT_CONFIG.
    apply startup_config_fixed;
      [apply (map_union_idemp _) | by eexists | by eexists]. }
  split; [exact H|].
  exact (step_keeps_restartable _ _
           (Menu.step_raised (Spec.fair_env 7) (Menu.SetUpper "abc%")
              Spec.fresh_app _ eq_refl) H).
Defined.
